(** * Configuration loading, merging and validation (main.py)

    A shallow embedding of the configuration pipeline of the dependency-graph
    visualiser prototype: [load_configuration], [validate_configuration],
    [create_default_config] and [merge_configs].

    Python objects that the program creates, aliases or updates in place (the
    configuration dictionaries) live in a heap and are handled through
    references; the values stored inside them are never updated by this
    program and are modelled as immutable trees.  Python [str] values are
    Rocq strings holding the UTF-8 encoding of the text. *)

From Stdlib Require Import ZArith Ascii String SpecFloat.
From stdpp Require Import base option list strings pretty gmap.

Set Warnings "-register-all".

Local Open Scope string_scope.
Local Open Scope Z_scope.

(* ===================================================================== *)
(** * Text: code points and [str.strip] *)
(* ===================================================================== *)

Module Text.

(** The string made of the given bytes. *)
Fixpoint bytes (l : list nat) : string :=
  match l with
  | [] => ""
  | b :: l' => String (ascii_of_nat b) (bytes l')
  end.

(** UTF-8 continuation bytes, 0x80..0xBF. *)
Definition is_continuation (c : ascii) : bool :=
  let n := nat_of_ascii c in (128 <=? n)%nat && (n <? 192)%nat.

Definition starts_with_continuation (s : string) : bool :=
  match s with
  | String c _ => is_continuation c
  | EmptyString => false
  end.

(** The code points of a text, each as its UTF-8 byte sequence: a byte
    opens a new code point unless the bytes after it continue it. *)
Fixpoint code_points (s : string) : list string :=
  match s with
  | EmptyString => []
  | String c s' =>
      match code_points s' with
      | cp :: rest =>
          if starts_with_continuation cp
          then String c cp :: rest
          else String c "" :: cp :: rest
      | [] => [String c ""]
      end
  end.

(** Number of code points, Python's [len]. *)
Fixpoint py_len (s : string) : nat :=
  match s with
  | EmptyString => 0%nat
  | String c s' => ((if is_continuation c then 0 else 1) + py_len s')%nat
  end.

(** The code points for which [str.isspace] holds, which are the ones
    [str.strip()] removes: U+0009..U+000D, U+001C..U+0020, U+0085, U+00A0,
    U+1680, U+2000..U+200A, U+2028, U+2029, U+202F, U+205F, U+3000. *)
Definition whitespace : list string :=
  map bytes
    [ [9]; [10]; [11]; [12]; [13]; [28]; [29]; [30]; [31]; [32];
      [194; 133]; [194; 160]; [225; 154; 128];
      [226; 128; 128]; [226; 128; 129]; [226; 128; 130]; [226; 128; 131];
      [226; 128; 132]; [226; 128; 133]; [226; 128; 134]; [226; 128; 135];
      [226; 128; 136]; [226; 128; 137]; [226; 128; 138];
      [226; 128; 168]; [226; 128; 169]; [226; 128; 175];
      [226; 129; 159]; [227; 128; 128] ]%nat.

Definition isspace (cp : string) : bool :=
  existsb (String.eqb cp) whitespace.

Fixpoint drop_while {A} (p : A -> bool) (l : list A) : list A :=
  match l with
  | [] => []
  | x :: l' => if p x then drop_while p l' else l
  end.

(** [s.strip()]: leading and trailing white space removed. *)
Definition strip (s : string) : string :=
  String.concat ""
    (rev (drop_while isspace (rev (drop_while isspace (code_points s))))).

(** A text that [strip] empties. *)
Definition blank (s : string) : bool := forallb isspace (code_points s).

(** Whether a text holds a carriage return. *)
Fixpoint has_cr (s : string) : bool :=
  match s with
  | EmptyString => false
  | String c s' => (nat_of_ascii c =? 13)%nat || has_cr s'
  end.

End Text.

(* ===================================================================== *)
(** * Values *)
(* ===================================================================== *)

(** Python [float] is IEEE binary64. *)
Definition float := spec_float.

(** The values a configuration can hold: what [json.load] produces, and the
    strings and Booleans that [merge_configs] stores. *)
Inductive value : Type :=
| VNone
| VBool (b : bool)
| VInt (n : Z)
| VFloat (f : float)
| VStr (s : string)
| VList (l : list value)
| VDict (d : list (string * value)).

(** A dictionary with string keys, in insertion order. *)
Definition dict := list (string * value).

(** Truth value of an object, as [if x:] tests it. *)
Definition truthy (v : value) : bool :=
  match v with
  | VNone => false
  | VBool b => b
  | VInt n => negb (n =? 0)
  | VFloat f => match f with S754_zero _ => false | _ => true end
  | VStr s => negb (String.eqb s "")
  | VList l => match l with [] => false | _ => true end
  | VDict d => match d with [] => false | _ => true end
  end.

Definition isinstance_str (v : value) : bool :=
  match v with VStr _ => true | _ => false end.

Definition is_none (v : value) : bool :=
  match v with VNone => true | _ => false end.

(** [not isinstance(v, str) or not v.strip()]: [strip] is only reached for a
    string, and its result is tested for truth. *)
Definition not_str_or_blank (v : value) : bool :=
  match v with
  | VStr s => negb (truthy (VStr (Text.strip s)))
  | _ => true
  end.

Module Dict.

(** [d[k]], [None] standing for a missing key. *)
Fixpoint get (k : string) (d : dict) : option value :=
  match d with
  | [] => None
  | (k', v) :: d' => if String.eqb k k' then Some v else get k d'
  end.

(** [k in d]. *)
Fixpoint mem (k : string) (d : dict) : bool :=
  match d with
  | [] => false
  | (k', _) :: d' => String.eqb k k' || mem k d'
  end.

(** [d[k] = v]: the value of an existing key is replaced where it stands,
    a new key goes to the end. *)
Fixpoint set (k : string) (v : value) (d : dict) : dict :=
  match d with
  | [] => [(k, v)]
  | (k', v') :: d' =>
      if String.eqb k k' then (k', v) :: d' else (k', v') :: set k v d'
  end.

Definition keys (d : dict) : list string := map fst d.

End Dict.

(* ===================================================================== *)
(** * Exceptions *)
(* ===================================================================== *)

(** The exception classes the program can meet, with their place in Python's
    hierarchy. *)
Inductive exn_class : Type :=
| Exception
| OSError | FileNotFoundError | IsADirectoryError | PermissionError
| ValueError | JSONDecodeError | UnicodeDecodeError
| RuntimeError | RecursionError
| LookupError | KeyError
| TypeError | AttributeError | SystemError.

Global Instance exn_class_eq_dec : EqDecision exn_class.
Proof. solve_decision. Defined.

Definition base_class (c : exn_class) : option exn_class :=
  match c with
  | Exception => None
  | FileNotFoundError | IsADirectoryError | PermissionError => Some OSError
  | JSONDecodeError | UnicodeDecodeError => Some ValueError
  | RecursionError => Some RuntimeError
  | KeyError => Some LookupError
  | OSError | ValueError | RuntimeError | LookupError
  | TypeError | AttributeError | SystemError => Some Exception
  end.

Fixpoint issubclass_upto (n : nat) (c d : exn_class) : bool :=
  bool_decide (c = d) ||
  match n, base_class c with
  | S n', Some b => issubclass_upto n' b d
  | _, _ => false
  end.

(** The hierarchy above is two levels deep under [Exception]. *)
Definition issubclass : exn_class -> exn_class -> bool := issubclass_upto 2.

(** An exception object: its class and the text [str(e)] gives. *)
Record exn : Type := Exn { exn_class_of : exn_class; exn_str : string }.

Inductive outcome (A : Type) : Type :=
| Ok (a : A)
| Raise (e : exn).
Arguments Ok {A} a.
Arguments Raise {A} e.

(* ===================================================================== *)
(** * The json module: [dump] with [indent], [ensure_ascii=False]; [load] *)
(* ===================================================================== *)

(** What the json module takes from the interpreter: [float.__repr__] for a
    finite float and [float(text)] for a number literal with a fraction or an
    exponent, and for the constants NaN, Infinity and -Infinity. *)
Class FloatCodec : Type := {
  float_repr : float -> string;
  float_of_literal : string -> float
}.

Module JSON.

Definition dquote : ascii := ascii_of_nat 34.
Definition backslash : ascii := ascii_of_nat 92.
Definition newline : ascii := ascii_of_nat 10.

Definition str1 (c : ascii) : string := String c "".

(** ** Encoding *)

Definition hex_digit (n : nat) : ascii :=
  nth n (list_ascii_of_string "0123456789abcdef") "0"%char.

(** One character of a string, as [encode_basestring] writes it. *)
Definition escape_char (c : ascii) : string :=
  let n := nat_of_ascii c in
  if (n =? 34)%nat then String backslash (str1 dquote)
  else if (n =? 92)%nat then String backslash (str1 backslash)
  else if (n =? 10)%nat then "\n"
  else if (n =? 13)%nat then "\r"
  else if (n =? 9)%nat then "\t"
  else if (n =? 8)%nat then "\b"
  else if (n =? 12)%nat then "\f"
  else if (n <? 32)%nat
       then "\u00" +:+ String (hex_digit (n / 16)) (str1 (hex_digit (n mod 16)))
  else str1 c.

Fixpoint escape (s : string) : string :=
  match s with
  | EmptyString => ""
  | String c s' => escape_char c +:+ escape s'
  end.

Definition encode_str (s : string) : string :=
  String dquote (escape s +:+ str1 dquote).

Fixpoint spaces (n : nat) : string :=
  match n with
  | O => ""
  | S n' => String " " (spaces n')
  end.

Definition encode_float `{FloatCodec} (f : float) : string :=
  match f with
  | S754_nan => "NaN"
  | S754_infinity false => "Infinity"
  | S754_infinity true => "-Infinity"
  | _ => float_repr f
  end.

(** [json.dumps(v, indent=indent, ensure_ascii=False)], the text written
    for [v] when it stands at nesting depth [level]. *)
Fixpoint encode `{FloatCodec} (indent level : nat) (v : value) : string :=
  let inner := str1 newline +:+ spaces (indent * S level) in
  let outer := str1 newline +:+ spaces (indent * level) in
  match v with
  | VNone => "null"
  | VBool true => "true"
  | VBool false => "false"
  | VInt n => pretty n
  | VFloat f => encode_float f
  | VStr s => encode_str s
  | VList [] => "[]"
  | VList l =>
      "[" +:+ inner
      +:+ String.concat ("," +:+ inner) (List.map (encode indent (S level)) l)
      +:+ outer +:+ "]"
  | VDict [] => "{}"
  | VDict d =>
      "{" +:+ inner
      +:+ String.concat ("," +:+ inner)
            (List.map (fun kv => encode_str (fst kv) +:+ ": "
                                 +:+ encode indent (S level) (snd kv)) d)
      +:+ outer +:+ "}"
  end.

Definition dumps `{FloatCodec} (indent : nat) (v : value) : string :=
  encode indent 0 v.

(** ** Decoding *)

(** A scanner yields a result and the text left, or an error and the text
    at which it stands, or gives up for lack of fuel. *)
Inductive presult (A : Type) : Type :=
| POk (a : A) (rest : string)
| PErr (msg : string) (rest : string)
| PDeep.
Arguments POk {A} a rest.
Arguments PErr {A} msg rest.
Arguments PDeep {A}.

Definition pmap {A B} (f : A -> B) (r : presult A) : presult B :=
  match r with
  | POk a rest => POk (f a) rest
  | PErr msg rest => PErr msg rest
  | PDeep => PDeep
  end.

Definition is_ws (c : ascii) : bool :=
  let n := nat_of_ascii c in
  (n =? 32)%nat || (n =? 9)%nat || (n =? 10)%nat || (n =? 13)%nat.

Fixpoint skip_ws (s : string) : string :=
  match s with
  | String c s' => if is_ws c then skip_ws s' else s
  | EmptyString => s
  end.

Definition is_digit (c : ascii) : bool :=
  let n := nat_of_ascii c in (48 <=? n)%nat && (n <=? 57)%nat.

Definition hex_value (c : ascii) : option N :=
  let n := N_of_ascii c in
  if (48 <=? n)%N && (n <=? 57)%N then Some (n - 48)%N
  else if (97 <=? n)%N && (n <=? 102)%N then Some (n - 87)%N
  else if (65 <=? n)%N && (n <=? 70)%N then Some (n - 55)%N
  else None.

Definition hex4 (a b c d : ascii) : option N :=
  match hex_value a, hex_value b, hex_value c, hex_value d with
  | Some x, Some y, Some z, Some w => Some (((x * 16 + y) * 16 + z) * 16 + w)%N
  | _, _, _, _ => None
  end.

(** UTF-8 encoding of a code point (a lone surrogate is encoded by the
    same scheme). *)
Definition utf8 (cp : N) : string :=
  let b (n : N) := ascii_of_N n in
  (if cp <? 128 then str1 (b cp)
   else if cp <? 2048 then
     String (b (192 + cp / 64)) (str1 (b (128 + cp mod 64)))
   else if cp <? 65536 then
     String (b (224 + cp / 4096))
       (String (b (128 + (cp / 64) mod 64)) (str1 (b (128 + cp mod 64))))
   else
     String (b (240 + cp / 262144))
       (String (b (128 + (cp / 4096) mod 64))
          (String (b (128 + (cp / 64) mod 64)) (str1 (b (128 + cp mod 64))))))%N.

Definition is_high_surrogate (cp : N) : bool := ((55296 <=? cp) && (cp <=? 56319))%N.
Definition is_low_surrogate (cp : N) : bool := ((56320 <=? cp) && (cp <=? 57343))%N.
Definition join_surrogates (hi lo : N) : N :=
  (65536 + (hi - 55296) * 1024 + (lo - 56320))%N.

(** The character a one-letter escape stands for. *)
Definition unescape (e : ascii) : option ascii :=
  let n := nat_of_ascii e in
  if (n =? 34)%nat then Some dquote
  else if (n =? 92)%nat then Some backslash
  else if (n =? 47)%nat then Some "/"%char
  else if (n =? 98)%nat then Some (ascii_of_nat 8)
  else if (n =? 102)%nat then Some (ascii_of_nat 12)
  else if (n =? 110)%nat then Some newline
  else if (n =? 114)%nat then Some (ascii_of_nat 13)
  else if (n =? 116)%nat then Some (ascii_of_nat 9)
  else None.

(** The body of a string literal, [start] being the text from its opening
    quote and [s] the text after that quote (strict mode). *)
Fixpoint scanstring (start s : string) : presult string :=
  match s with
  | EmptyString => PErr "Unterminated string starting at" start
  | String c s1 =>
      if (c =? dquote)%char then POk "" s1
      else if (c =? backslash)%char then
        match s1 with
        | EmptyString => PErr "Unterminated string starting at" start
        | String e s2 =>
            if (e =? "u")%char then
              match s2 with
              | String h1 (String h2 (String h3 (String h4 rest))) =>
                  match rest with
                  | EmptyString => PErr "Invalid \uXXXX escape" s1
                  | String x s3 =>
                      match hex4 h1 h2 h3 h4 with
                      | None => PErr "Invalid \uXXXX escape" s1
                      | Some hi =>
                          let plain := pmap (String.append (utf8 hi)) (scanstring start rest) in
                          if is_high_surrogate hi && (x =? backslash)%char then
                            match s3 with
                            | String u (String g1 (String g2 (String g3 (String g4 after)))) =>
                                match after with
                                | EmptyString => plain
                                | String _ _ =>
                                    if (u =? "u")%char then
                                      match hex4 g1 g2 g3 g4 with
                                      | None => PErr "Invalid \uXXXX escape" s3
                                      | Some lo =>
                                          if is_low_surrogate lo
                                          then pmap (String.append (utf8 (join_surrogates hi lo)))
                                                    (scanstring start after)
                                          else plain
                                      end
                                    else plain
                                end
                            | _ => plain
                            end
                          else plain
                      end
                  end
              | _ => PErr "Invalid \uXXXX escape" s1
              end
            else
              match unescape e with
              | Some ch => pmap (String ch) (scanstring start s2)
              | None => PErr "Invalid \escape" s
              end
        end
      else if (nat_of_ascii c <? 32)%nat then PErr "Invalid control character at" s
      else pmap (String c) (scanstring start s1)
  end.

Fixpoint span_digits (s : string) : string * string :=
  match s with
  | String c s' =>
      if is_digit c
      then let '(ds, rest) := span_digits s' in (String c ds, rest)
      else ("", s)
  | EmptyString => ("", s)
  end.

(** [int(text)] for a text of decimal digits with an optional minus sign. *)
Fixpoint digits_value (acc : Z) (s : string) : Z :=
  match s with
  | String c s' => digits_value (10 * acc + (Z.of_nat (nat_of_ascii c) - 48)) s'
  | EmptyString => acc
  end.

Definition int_of_literal (s : string) : Z :=
  match s with
  | String "-" s' => - digits_value 0 s'
  | _ => digits_value 0 s
  end.

(** The number literal at the head of [s]: an optional minus sign, then a
    zero or a run of digits not starting with zero, then an optional
    fraction (a dot and digits) and an optional exponent (e or E, an
    optional sign, digits).  The result is its text, whether it has a
    fraction or an exponent, and the text left. *)
Definition match_number (s : string) : option (string * bool * string) :=
  let '(sign, s1) :=
    match s with String "-" t => ("-", t) | _ => ("", s) end in
  let int_part :=
    match s1 with
    | String c s2 =>
        if (c =? "0")%char then Some ("0", s2)
        else if is_digit c then Some (span_digits s1)
        else None
    | EmptyString => None
    end in
  match int_part with
  | None => None
  | Some (ip, r) =>
      let '(frac, r1) :=
        match r with
        | String "." t =>
            let '(ds, t') := span_digits t in
            if String.eqb ds "" then ("", r) else ("." +:+ ds, t')
        | _ => ("", r)
        end in
      let '(expo, r2) :=
        match r1 with
        | String e t =>
            if (e =? "e")%char || (e =? "E")%char then
              let '(sg, t1) :=
                match t with
                | String "+" t' => ("+", t')
                | String "-" t' => ("-", t')
                | _ => ("", t)
                end in
              let '(ds, t2) := span_digits t1 in
              if String.eqb ds "" then ("", r1) else (String e (sg +:+ ds), t2)
            else ("", r1)
        | EmptyString => ("", r1)
        end in
      Some (sign +:+ ip +:+ frac +:+ expo,
            negb (String.eqb frac "") || negb (String.eqb expo ""), r2)
  end.

(** [drop_prefix p s]: the text after [p] when [s] starts with [p]. *)
Fixpoint drop_prefix (p s : string) : option string :=
  match p, s with
  | EmptyString, _ => Some s
  | String a p', String b s' => if (a =? b)%char then drop_prefix p' s' else None
  | String _ _, EmptyString => None
  end.

Definition constant `{FloatCodec} (name : string) (s : string) : option (value * string) :=
  match drop_prefix name s with
  | None => None
  | Some rest =>
      Some (if String.eqb name "null" then VNone
            else if String.eqb name "true" then VBool true
            else if String.eqb name "false" then VBool false
            else VFloat (float_of_literal name), rest)
  end.

(** [scan_once] reads one value at the head of [s]; [parse_array] and
    [parse_object] read the items of a non-empty array or object, [acc]
    holding the items read so far. *)
Fixpoint scan_once `{FloatCodec} (fuel : nat) (s : string) : presult value :=
  match fuel with
  | O => PDeep
  | S fuel' =>
      match s with
      | EmptyString => PErr "Expecting value" s
      | String c s1 =>
          if (c =? dquote)%char then pmap VStr (scanstring s s1)
          else if (c =? "{")%char then
            match skip_ws s1 with
            | String "}" s2 => POk (VDict []) s2
            | s2 => parse_object fuel' [] s2
            end
          else if (c =? "[")%char then
            match skip_ws s1 with
            | String "]" s2 => POk (VList []) s2
            | s2 => parse_array fuel' [] s2
            end
          else
            match
              List.fold_left
                (fun found name =>
                   match found with Some _ => found | None => constant name s end)
                ["null"; "true"; "false"; "NaN"; "Infinity"; "-Infinity"] None
            with
            | Some (v, rest) => POk v rest
            | None =>
                match match_number s with
                | Some (lit, is_float, rest) =>
                    POk (if is_float then VFloat (float_of_literal lit)
                         else VInt (int_of_literal lit)) rest
                | None => PErr "Expecting value" s
                end
            end
      end
  end
with parse_array `{FloatCodec} (fuel : nat) (acc : list value) (s : string)
    : presult value :=
  match fuel with
  | O => PDeep
  | S fuel' =>
      match scan_once fuel' s with
      | POk v r =>
          let r1 := skip_ws r in
          match r1 with
          | String c r2 =>
              if (c =? "]")%char then POk (VList (acc ++ [v])) r2
              else if (c =? ",")%char then parse_array fuel' (acc ++ [v]) (skip_ws r2)
              else PErr "Expecting ',' delimiter" r1
          | EmptyString => PErr "Expecting ',' delimiter" r1
          end
      | PErr msg r => PErr msg r
      | PDeep => PDeep
      end
  end
with parse_object `{FloatCodec} (fuel : nat) (acc : dict) (s : string)
    : presult value :=
  match fuel with
  | O => PDeep
  | S fuel' =>
      match s with
      | String c s1 =>
          if (c =? dquote)%char then
            match scanstring s s1 with
            | POk key r =>
                let r1 := skip_ws r in
                match r1 with
                | String c1 r2 =>
                    if (c1 =? ":")%char then
                      match scan_once fuel' (skip_ws r2) with
                      | POk v r3 =>
                          let r4 := skip_ws r3 in
                          match r4 with
                          | String c2 r5 =>
                              if (c2 =? "}")%char
                              then POk (VDict (Dict.set key v acc)) r5
                              else if (c2 =? ",")%char
                              then parse_object fuel' (Dict.set key v acc) (skip_ws r5)
                              else PErr "Expecting ',' delimiter" r4
                          | EmptyString => PErr "Expecting ',' delimiter" r4
                          end
                      | PErr msg r3 => PErr msg r3
                      | PDeep => PDeep
                      end
                    else PErr "Expecting ':' delimiter" r1
                | EmptyString => PErr "Expecting ':' delimiter" r1
                end
            | PErr msg r => PErr msg r
            | PDeep => PDeep
            end
          else PErr "Expecting property name enclosed in double quotes" s
      | EmptyString => PErr "Expecting property name enclosed in double quotes" s
      end
  end.

(** Line and column (both from 1) reached after the text [s], counted in
    code points. *)
Fixpoint line_col (line col : nat) (s : string) : nat * nat :=
  match s with
  | EmptyString => (line, col)
  | String c s' =>
      if (c =? newline)%char then line_col (S line) 1 s'
      else if Text.is_continuation c then line_col line col s'
      else line_col line (S col) s'
  end.

(** [str(e)] of the [JSONDecodeError] raised with [msg] at the place of
    [doc] where [rest] begins. *)
Definition errmsg (msg doc rest : string) : string :=
  let before := String.substring 0 (String.length doc - String.length rest) doc in
  let '(line, col) := line_col 1 1 before in
  msg +:+ ": line " +:+ pretty line +:+ " column " +:+ pretty col
      +:+ " (char " +:+ pretty (Text.py_len before) +:+ ")".

Definition bom : string := Text.bytes [239; 187; 191]%nat.

(** [json.loads(doc)]. *)
Definition loads `{FloatCodec} (doc : string) : outcome value :=
  match drop_prefix bom doc with
  | Some _ =>
      Raise (Exn JSONDecodeError
               (errmsg "Unexpected UTF-8 BOM (decode using utf-8-sig)" doc doc))
  | None =>
      match scan_once (2 * String.length doc + 2) (skip_ws doc) with
      | POk v rest =>
          match skip_ws rest with
          | EmptyString => Ok v
          | rest' => Raise (Exn JSONDecodeError (errmsg "Extra data" doc rest'))
          end
      | PErr msg rest => Raise (Exn JSONDecodeError (errmsg msg doc rest))
      | PDeep => Raise (Exn RecursionError "maximum recursion depth exceeded")
      end
  end.

End JSON.

(* ===================================================================== *)
(** * The environment: files, heap, standard output *)
(* ===================================================================== *)

(** The file system as the program uses it: [os.path.exists], reading a whole
    UTF-8 text file and writing one, both in text mode.  A read or write
    either succeeds or raises; a text that was written is the text read back,
    provided it holds no carriage return (text mode reads one back as a line
    feed). *)
Class FileSystem (FS : Type) : Type := {
  path_exists : FS -> string -> bool;
  read_text : FS -> string -> outcome string;
  write_text : FS -> string -> string -> outcome FS;
  write_then_read : forall fs p s fs',
    Text.has_cr s = false ->
    write_text fs p s = Ok fs' ->
    path_exists fs' p = true /\ read_text fs' p = Ok s
}.

(** References to heap objects. *)
Definition loc := nat.

Record world (FS : Type) : Type := World {
  heap : list value;
  files : FS;
  stdout : list string
}.
Arguments World {FS} heap files stdout.
Arguments heap {FS} w.
Arguments files {FS} w.
Arguments stdout {FS} w.

(** Computations: they read and update the world and return or raise. *)
Definition M (FS A : Type) : Type := world FS -> outcome A * world FS.

Global Instance M_ret {FS} : MRet (M FS) := fun A a w => (Ok a, w).

Global Instance M_bind {FS} : MBind (M FS) := fun A B f m w =>
  match m w with
  | (Ok a, w') => f a w'
  | (Raise e, w') => (Raise e, w')
  end.

Definition raise {FS A} (e : exn) : M FS A := fun w => (Raise e, w).

(** [try: body except Exception as e: handler(e)]. *)
Definition try_except {FS A} (body : M FS A) (handler : exn -> M FS A) : M FS A :=
  fun w =>
    match body w with
    | (Ok a, w') => (Ok a, w')
    | (Raise e, w') => handler e w'
    end.

(** [for x in l: body(x)]. *)
Fixpoint for_each {FS A} (l : list A) (body : A -> M FS unit) : M FS unit :=
  match l with
  | [] => mret tt
  | x :: l' => body x ;; for_each l' body
  end.

Section Objects.
Context {FS : Type}.

Definition deref (r : loc) : M FS value := fun w =>
  match heap w !! r with
  | Some v => (Ok v, w)
  | None => (Raise (Exn SystemError "dangling reference"), w)
  end.

(** A new object, at a reference not in use. *)
Definition alloc (v : value) : M FS loc := fun w =>
  (Ok (length (heap w)), World (heap w ++ [v]) (files w) (stdout w)).

Definition store (r : loc) (v : value) : M FS unit := fun w =>
  (Ok tt, World (<[r := v]> (heap w)) (files w) (stdout w)).

Definition print (line : string) : M FS unit := fun w =>
  (Ok tt, World (heap w) (files w) (stdout w ++ [line])).

Definition type_name (v : value) : string :=
  match v with
  | VNone => "NoneType"
  | VBool _ => "bool"
  | VInt _ => "int"
  | VFloat _ => "float"
  | VStr _ => "str"
  | VList _ => "list"
  | VDict _ => "dict"
  end.

Fixpoint is_substring (k s : string) : bool :=
  String.prefix k s ||
  match s with
  | String _ s' => is_substring k s'
  | EmptyString => false
  end.

(** [k in obj] for a string [k]. *)
Definition py_in (k : string) (obj : loc) : M FS bool :=
  v ← deref obj;
  match v with
  | VDict d => mret (Dict.mem k d)
  | VList l =>
      mret (existsb (fun x => match x with
                              | VStr s => String.eqb s k
                              | _ => false
                              end) l)
  | VStr s => mret (is_substring k s)
  | _ => raise (Exn TypeError
                  ("argument of type '" +:+ type_name v +:+ "' is not iterable"))
  end.

(** [obj[k]] for a string [k] (the keys this program uses are plain
    identifiers, whose [repr] is the key between single quotes). *)
Definition getitem (obj : loc) (k : string) : M FS value :=
  v ← deref obj;
  match v with
  | VDict d =>
      match Dict.get k d with
      | Some x => mret x
      | None => raise (Exn KeyError ("'" +:+ k +:+ "'"))
      end
  | VList _ => raise (Exn TypeError "list indices must be integers or slices, not str")
  | VStr _ => raise (Exn TypeError "string indices must be integers, not 'str'")
  | _ => raise (Exn TypeError ("'" +:+ type_name v +:+ "' object is not subscriptable"))
  end.

(** [obj[k] = x] for a string [k]: the object is updated where it is. *)
Definition setitem (obj : loc) (k : string) (x : value) : M FS unit :=
  v ← deref obj;
  match v with
  | VDict d => store obj (VDict (Dict.set k x d))
  | VList _ => raise (Exn TypeError "list indices must be integers or slices, not str")
  | _ => raise (Exn TypeError
                  ("'" +:+ type_name v +:+ "' object does not support item assignment"))
  end.

(** [obj.copy()]: a new object with the same items. *)
Definition py_copy (obj : loc) : M FS loc :=
  v ← deref obj;
  match v with
  | VDict _ | VList _ => alloc v
  | _ => raise (Exn AttributeError
                  ("'" +:+ type_name v +:+ "' object has no attribute 'copy'"))
  end.

End Objects.

Section Files.
Context {FS : Type} `{!FileSystem FS}.

Definition os_path_exists (path : string) : M FS bool := fun w =>
  (Ok (path_exists (files w) path), w).

(** [with open(path, 'r', encoding='utf-8') as file: file.read()]. *)
Definition read_file (path : string) : M FS string := fun w =>
  (read_text (files w) path, w).

(** [with open(path, 'w', encoding='utf-8') as file: file.write(text)]. *)
Definition write_file (path text : string) : M FS unit := fun w =>
  match write_text (files w) path text with
  | Ok fs' => (Ok tt, World (heap w) fs' (stdout w))
  | Raise e => (Raise e, w)
  end.

End Files.

(* ===================================================================== *)
(** * The program *)
(* ===================================================================== *)

(** The parsed command line ([argparse.Namespace]): a free-form override is
    [None] when its flag is not given, a toggle is [False] when its flag is
    not given. *)
Record Namespace : Type := {
  config : string;
  create_config : bool;
  package_name : option string;
  repository_url : option string;
  output_filename : option string;
  package_filter : option string;
  ascii_tree : bool;
  no_ascii_tree : bool;
  test_mode : bool;
  no_test_mode : bool
}.

(** The object an optional argument holds: [None] or a [str]. *)
Definition arg (o : option string) : value :=
  match o with
  | Some s => VStr s
  | None => VNone
  end.

Definition required_params : list string :=
  ["package_name"; "repository_url"; "test_repository_mode";
   "output_filename"; "ascii_tree_output"].

Definition default_config : dict :=
  [ ("package_name", VStr "example-package");
    ("repository_url", VStr "https://github.com/example/repo");
    ("test_repository_mode", VBool false);
    ("test_repository_path", VStr "./test-repo");
    ("output_filename", VStr "dependency_graph.png");
    ("ascii_tree_output", VBool true);
    ("package_filter", VStr "") ].

Section Program.
Context {FS : Type} `{!FileSystem FS} `{!FloatCodec}.

(** [json.load(file)]: the text read from the file, decoded into a new
    object. *)
Definition json_load (path : string) : M FS loc :=
  text ← read_file path;
  match JSON.loads text with
  | Ok v => alloc v
  | Raise e => raise e
  end.

Definition load_configuration (config_file : string) : M FS loc :=
  try_except
    (present ← os_path_exists config_file;
     if negb present
     then raise (Exn FileNotFoundError
                   ("Конфигурационный файл '" +:+ config_file +:+ "' не найден"))
     else
       config ← json_load config_file;
       mret config)
    (fun e =>
       if issubclass (exn_class_of e) FileNotFoundError then raise e
       else if issubclass (exn_class_of e) JSONDecodeError then
         raise (Exn ValueError
                  ("Ошибка парсинга JSON в файле '" +:+ config_file +:+ "': "
                   +:+ exn_str e))
       else if issubclass (exn_class_of e) Exception then
         raise (Exn RuntimeError
                  ("Неожиданная ошибка при загрузке конфигурации: " +:+ exn_str e))
       else raise e).

Definition validate_configuration (config : loc) : M FS unit :=
  for_each required_params (fun param =>
    present ← py_in param config;
    if negb present
    then raise (Exn ValueError ("Отсутствует обязательный параметр: " +:+ param))
    else mret tt) ;;
  name ← getitem config "package_name";
  (if not_str_or_blank name
   then raise (Exn ValueError "Имя пакета должно быть непустой строкой")
   else mret tt) ;;
  mode ← getitem config "test_repository_mode";
  if truthy mode then
    present ← py_in "test_repository_path" config;
    if negb present
    then raise (Exn ValueError
                  "В режиме тестового репозитория должен быть указан test_repository_path")
    else mret tt
  else
    url ← getitem config "repository_url";
    if not_str_or_blank url
    then raise (Exn ValueError "URL репозитория должен быть непустой строкой")
    else mret tt.

Definition create_default_config (config_file : string) : M FS unit :=
  write_file config_file (JSON.dumps 4 (VDict default_config)) ;;
  print ("Создан файл конфигурации по умолчанию: " +:+ config_file).

(** [if cond: config[key] = x]. *)
Definition set_if (cond : bool) (config : loc) (key : string) (x : value) : M FS unit :=
  if cond then setitem config key x else mret tt.

Definition merge_configs (file_config : loc) (cli_args : Namespace) : M FS loc :=
  config ← py_copy file_config;
  set_if (truthy (arg (package_name cli_args)))
    config "package_name" (arg (package_name cli_args)) ;;
  set_if (truthy (arg (repository_url cli_args)))
    config "repository_url" (arg (repository_url cli_args)) ;;
  set_if (truthy (arg (output_filename cli_args)))
    config "output_filename" (arg (output_filename cli_args)) ;;
  set_if (negb (is_none (arg (package_filter cli_args))))
    config "package_filter" (arg (package_filter cli_args)) ;;
  set_if (ascii_tree cli_args) config "ascii_tree_output" (VBool true) ;;
  set_if (no_ascii_tree cli_args) config "ascii_tree_output" (VBool false) ;;
  set_if (test_mode cli_args) config "test_repository_mode" (VBool true) ;;
  set_if (no_test_mode cli_args) config "test_repository_mode" (VBool false) ;;
  mret config.

End Program.

(* ===================================================================== *)
(** * [str] and [repr] of a value *)
(* ===================================================================== *)

(** What [repr] takes from the interpreter's Unicode tables: whether a code
    point outside ASCII is printable ([str.isprintable]). *)
Class UnicodeData : Type := {
  isprintable : N -> bool
}.

Module Repr.

(** [width] lower-case hexadecimal digits of [n]. *)
Fixpoint hex (width : nat) (n : N) : string :=
  match width with
  | O => ""
  | S width' =>
      hex width' (n / 16)
      +:+ JSON.str1 (JSON.hex_digit (N.to_nat (n mod 16)))
  end.

Fixpoint continuation_value (acc : N) (s : string) : N :=
  match s with
  | EmptyString => acc
  | String c s' => continuation_value (acc * 64 + N_of_ascii c mod 64) s'
  end.

(** The code point that a UTF-8 sequence encodes. *)
Definition code_point_value (cp : string) : N :=
  match cp with
  | EmptyString => 0
  | String c rest =>
      let n := N_of_ascii c in
      continuation_value
        (if n <? 128 then n
         else if n <? 224 then n - 192
         else if n <? 240 then n - 224
         else n - 240) rest
  end%N.

Fixpoint has_char (c : ascii) (s : string) : bool :=
  match s with
  | EmptyString => false
  | String c' s' => (c =? c')%char || has_char c s'
  end.

(** The quote [repr] puts around a string: a double quote when the string
    holds a single quote and no double quote, a single quote otherwise. *)
Definition quote_for (s : string) : ascii :=
  if has_char "'"%char s && negb (has_char JSON.dquote s)
  then JSON.dquote else "'"%char.

(** One code point of a string, as [repr] writes it between [quote]s. *)
Definition escape_code_point `{UnicodeData} (quote : ascii) (cp : string) : string :=
  let v := code_point_value cp in
  if (v <? 128)%N then
    let c := ascii_of_N v in
    if (c =? quote)%char || (c =? JSON.backslash)%char
    then String JSON.backslash (JSON.str1 c)
    else if (v =? 9)%N then "\t"
    else if (v =? 10)%N then "\n"
    else if (v =? 13)%N then "\r"
    else if (v <? 32)%N || (v =? 127)%N then "\x" +:+ hex 2 v
    else JSON.str1 c
  else if isprintable v then cp
  else if (v <? 256)%N then "\x" +:+ hex 2 v
  else if (v <? 65536)%N then "\u" +:+ hex 4 v
  else "\U" +:+ hex 8 v.

Definition repr_str `{UnicodeData} (s : string) : string :=
  let q := quote_for s in
  String q (String.concat "" (List.map (escape_code_point q) (Text.code_points s))
            +:+ JSON.str1 q).

(** [str(f)] for a float, which is also its [repr]. *)
Definition float_str `{FloatCodec} (f : float) : string :=
  match f with
  | S754_nan => "nan"
  | S754_infinity false => "inf"
  | S754_infinity true => "-inf"
  | _ => float_repr f
  end.

(** [repr(v)] (integers of any size are written out). *)
Fixpoint py_repr `{FloatCodec} `{UnicodeData} (v : value) : string :=
  match v with
  | VNone => "None"
  | VBool true => "True"
  | VBool false => "False"
  | VInt n => pretty n
  | VFloat f => float_str f
  | VStr s => repr_str s
  | VList l => "[" +:+ String.concat ", " (List.map py_repr l) +:+ "]"
  | VDict d =>
      "{" +:+ String.concat ", "
                (List.map (fun kv => repr_str (fst kv) +:+ ": " +:+ py_repr (snd kv)) d)
      +:+ "}"
  end.

(** [str(v)], which is what an f-string field [{v}] gives. *)
Definition py_str `{FloatCodec} `{UnicodeData} (v : value) : string :=
  match v with
  | VStr s => s
  | _ => py_repr v
  end.

End Repr.

(* ===================================================================== *)
(** * The program: display and entry point *)
(* ===================================================================== *)

Section Presenting.
Context {FS : Type} `{!FileSystem FS} `{!FloatCodec} `{!UnicodeData}.

(** [obj.items()], as a [for] loop walks it. *)
Definition dict_items (obj : loc) : M FS dict :=
  v ← deref obj;
  match v with
  | VDict d => mret d
  | _ => raise (Exn AttributeError
                  ("'" +:+ type_name v +:+ "' object has no attribute 'items'"))
  end.

Definition display_config_parameters (config : loc) : M FS unit :=
  print "=== Конфигурационные параметры ===" ;;
  items ← dict_items config;
  for_each items (fun kv =>
    print (fst kv +:+ ": " +:+ Repr.py_str (snd kv))) ;;
  print "==================================".

(** [main], with what [parser.parse_args()] returned as its argument.  The
    result is the exit status of the process: 0 when [main] returns, 1
    where it calls [sys.exit(1)]; an exception that [main] does not catch
    is raised. *)
Definition main (args : Namespace) : M FS Z :=
  if create_config args then
    create_default_config (config args) ;;
    mret 0
  else
    try_except
      (file_config ← load_configuration (config args);
       config ← merge_configs file_config args;
       validate_configuration config ;;
       display_config_parameters config ;;
       print (String JSON.newline " Конфигурация успешно загружена и валидирована!") ;;
       name ← getitem config "package_name";
       print (" Готов к анализу зависимостей пакета: " +:+ Repr.py_str name) ;;
       out ← getitem config "output_filename";
       print (" Результат будет сохранен в: " +:+ Repr.py_str out) ;;
       tree ← getitem config "ascii_tree_output";
       (if truthy tree
        then print " ASCII-дерево зависимостей будет выведено"
        else mret tt) ;;
       mret 0)
      (fun e =>
         if issubclass (exn_class_of e) FileNotFoundError then
           print (" Ошибка: Конфигурационный файл '" +:+ config args +:+ "' не найден.") ;;
           print " Создайте файл конфигурации: python main.py --create-config" ;;
           mret 1
         else if issubclass (exn_class_of e) ValueError then
           print (" Ошибка валидации конфигурации: " +:+ exn_str e) ;;
           mret 1
         else if issubclass (exn_class_of e) Exception then
           print (" Неожиданная ошибка: " +:+ exn_str e) ;;
           mret 1
         else raise e).

End Presenting.

(** ** What the statements below speak of *)

(** A computation that leaves the world as it found it, whatever it returns
    or raises. *)
Definition read_only {FS A} (m : M FS A) : Prop := forall w, (m w).2 = w.

(** The errors of [validate_configuration]. *)
Definition missing (p : string) : exn :=
  Exn ValueError ("Отсутствует обязательный параметр: " +:+ p).

Definition bad_package_name : exn :=
  Exn ValueError "Имя пакета должно быть непустой строкой".

Definition missing_test_path : exn :=
  Exn ValueError
    "В режиме тестового репозитория должен быть указан test_repository_path".

Definition bad_repository_url : exn :=
  Exn ValueError "URL репозитория должен быть непустой строкой".

(** The keys [validate_configuration] looks at. *)
Definition validated_keys : list string :=
  (required_params ++ ["test_repository_path"])%list.

(** The keys [merge_configs] can assign. *)
Definition override_targets : list string :=
  ["package_name"; "repository_url"; "output_filename"; "package_filter";
   "ascii_tree_output"; "test_repository_mode"].

(** A command line that overrides nothing. *)
Definition no_overrides (a : Namespace) : Prop :=
  package_name a = None /\ repository_url a = None /\ output_filename a = None
  /\ package_filter a = None
  /\ ascii_tree a = false /\ no_ascii_tree a = false
  /\ test_mode a = false /\ no_test_mode a = false.

(** [d] after [if c: d[k] = x]. *)
Definition set_when (c : bool) (k : string) (x : value) (d : dict) : dict :=
  if c then Dict.set k x d else d.

(** The dictionary [merge_configs] builds from the file dictionary [d]: its
    assignments, in the order the program makes them. *)
Definition overrides (a : Namespace) (d : dict) : dict :=
  set_when (no_test_mode a) "test_repository_mode" (VBool false)
    (set_when (test_mode a) "test_repository_mode" (VBool true)
      (set_when (no_ascii_tree a) "ascii_tree_output" (VBool false)
        (set_when (ascii_tree a) "ascii_tree_output" (VBool true)
          (set_when (negb (is_none (arg (package_filter a))))
             "package_filter" (arg (package_filter a))
            (set_when (truthy (arg (output_filename a)))
               "output_filename" (arg (output_filename a))
              (set_when (truthy (arg (repository_url a)))
                 "repository_url" (arg (repository_url a))
                (set_when (truthy (arg (package_name a)))
                   "package_name" (arg (package_name a)) d))))))).

(** ** What the further statements speak of *)

(** A dictionary [validate_configuration] accepts. *)
Definition acceptable (d : dict) : Prop :=
  (forall q, q ∈ required_params -> Dict.mem q d = true)
  /\ (exists s, Dict.get "package_name" d = Some (VStr s) /\ Text.blank s = false)
  /\ (exists mode,
        Dict.get "test_repository_mode" d = Some mode
        /\ if truthy mode
           then Dict.mem "test_repository_path" d = true
           else exists u, Dict.get "repository_url" d = Some (VStr u)
                          /\ Text.blank u = false).

(** [d'] keeps the keys of [d] in their order and adds, after them, only
    keys that [merge_configs] can assign; it repeats no key if [d] repeats
    none. *)
Definition keys_extended (d d' : dict) : Prop :=
  Dict.keys d `prefix_of` Dict.keys d'
  /\ (forall k, k ∈ Dict.keys d' -> k ∈ Dict.keys d \/ k ∈ override_targets)
  /\ (NoDup (Dict.keys d) -> NoDup (Dict.keys d')).

(** The lines [display_config_parameters] prints for a dictionary. *)
Definition display_lines `{FloatCodec} `{UnicodeData} (d : dict) : list string :=
  ("=== Конфигурационные параметры ==="
   :: List.map (fun kv => fst kv +:+ ": " +:+ Repr.py_str (snd kv)) d
   ++ ["=================================="])%list.

(** The lines [main] prints when it has caught the exception [e]. *)
Definition failure_lines (args : Namespace) (e : exn) : list string :=
  if issubclass (exn_class_of e) FileNotFoundError then
    [ " Ошибка: Конфигурационный файл '" +:+ config args +:+ "' не найден.";
      " Создайте файл конфигурации: python main.py --create-config" ]
  else if issubclass (exn_class_of e) ValueError then
    [ " Ошибка валидации конфигурации: " +:+ exn_str e ]
  else
    [ " Неожиданная ошибка: " +:+ exn_str e ].

(** The world after the lines [ls] have been printed. *)
Definition printed {FS} (w : world FS) (ls : list string) : world FS :=
  World (heap w) (files w) (stdout w ++ ls).

(** Whether the command line makes [merge_configs] assign anything. *)
Definition any_override (a : Namespace) : bool :=
  truthy (arg (package_name a)) || truthy (arg (repository_url a))
  || truthy (arg (output_filename a)) || negb (is_none (arg (package_filter a)))
  || ascii_tree a || no_ascii_tree a || test_mode a || no_test_mode a.

(* ===================================================================== *)
(** * A file system in memory *)
(* ===================================================================== *)

Module MemFS.

Inductive node : Type :=
| File (text : string)
| Dir.

(** What is at each path that exists. *)
Abbreviation t := (gmap string node).

Definition exists_ (fs : t) (p : string) : bool :=
  match fs !! p with
  | Some _ => true
  | None => false
  end.

Definition read (fs : t) (p : string) : outcome string :=
  match fs !! p with
  | Some (File text) => Ok text
  | Some Dir => Raise (Exn IsADirectoryError ("[Errno 21] Is a directory: '" +:+ p +:+ "'"))
  | None => Raise (Exn FileNotFoundError ("[Errno 2] No such file or directory: '" +:+ p +:+ "'"))
  end.

(** Writing creates the file or replaces its text; a directory, and the
    empty path, cannot be written. *)
Definition write (fs : t) (p text : string) : outcome t :=
  match fs !! p with
  | Some Dir => Raise (Exn IsADirectoryError ("[Errno 21] Is a directory: '" +:+ p +:+ "'"))
  | _ =>
      if String.eqb p ""
      then Raise (Exn FileNotFoundError "[Errno 2] No such file or directory: ''")
      else Ok (<[p := File text]> fs)
  end.

Lemma write_read (fs : t) (p s : string) (fs' : t) :
  Text.has_cr s = false ->
  write fs p s = Ok fs' -> exists_ fs' p = true /\ read fs' p = Ok s.
Proof.
  intros _. unfold write, exists_, read.
  destruct (fs !! p) as [[text|]|]; try discriminate;
    destruct (String.eqb p ""); try discriminate;
    intros [= <-]; rewrite lookup_insert_eq; split; reflexivity.
Qed.

Global Instance file_system : FileSystem t := {|
  path_exists := exists_;
  read_text := read;
  write_text := write;
  write_then_read := write_read
|}.

(** A float codec for documents that hold no float. *)
Definition no_floats : FloatCodec := {|
  float_repr := fun _ => "nan";
  float_of_literal := fun _ => S754_nan
|}.

End MemFS.

(* ===================================================================== *)
(** * Sample inputs *)
(* ===================================================================== *)

Module Samples.

(** The command line with no flag at all. *)
Definition no_flags : Namespace := {|
  config := "config.json";
  create_config := false;
  package_name := None;
  repository_url := None;
  output_filename := None;
  package_filter := None;
  ascii_tree := false;
  no_ascii_tree := false;
  test_mode := false;
  no_test_mode := false
|}.

(** A world with the given objects, no file and no output. *)
Definition objects (h : list value) : world MemFS.t := World h ∅ [].

(** A directory, a file that is not JSON, a file that holds a JSON array. *)
Definition some_files : world MemFS.t :=
  World []
    (<["data" := MemFS.Dir]>
       (<["broken.json" := MemFS.File "{"]>
          (<["list.json" := MemFS.File "[1, 2]"]> ∅)))
    [].

(** A complete configuration for a remote repository, with [url] as its
    repository_url and [mode] as its test_repository_mode. *)
Definition remote (mode url : value) : dict :=
  [ ("package_name", VStr "react");
    ("repository_url", url);
    ("test_repository_mode", mode);
    ("output_filename", VStr "graph.png");
    ("ascii_tree_output", VBool false) ].

(** A configuration without package_name and without output_filename. *)
Definition incomplete : dict :=
  [ ("repository_url", VStr "https://example.org/repo");
    ("test_repository_mode", VBool false);
    ("ascii_tree_output", VBool true) ].

(** The default configuration with a key the program does not know. *)
Definition with_color : dict :=
  (default_config ++ [("color", VStr "blue")])%list.

(** [--package-name b --repository-url ""]. *)
Definition name_b : Namespace := {|
  config := "config.json"; create_config := false;
  package_name := Some "b"; repository_url := Some "";
  output_filename := None; package_filter := None;
  ascii_tree := false; no_ascii_tree := false;
  test_mode := false; no_test_mode := false
|}.

(** [--package-filter ""]. *)
Definition empty_filter : Namespace := {|
  config := "config.json"; create_config := false;
  package_name := None; repository_url := None;
  output_filename := None; package_filter := Some "";
  ascii_tree := false; no_ascii_tree := false;
  test_mode := false; no_test_mode := false
|}.

(** [--package-name b --no-ascii-tree]. *)
Definition name_b_no_tree : Namespace := {|
  config := "config.json"; create_config := false;
  package_name := Some "b"; repository_url := None;
  output_filename := None; package_filter := None;
  ascii_tree := false; no_ascii_tree := true;
  test_mode := false; no_test_mode := false
|}.

End Samples.

Module MoreSamples.

(** Unicode data for texts in which every character outside ASCII is
    printable. *)
Definition all_printable : UnicodeData := {|
  isprintable := fun _ => true
|}.

(** A world whose only file, config.json, holds the default configuration
    as [create_default_config] writes it. *)
Definition ready : world MemFS.t :=
  World []
    (<["config.json" := MemFS.File
         (JSON.dumps (H:=MemFS.no_floats) 4 (VDict default_config))]> ∅)
    [].

(** [--create-config]. *)
Definition create_flag : Namespace := {|
  config := "config.json"; create_config := true;
  package_name := None; repository_url := None;
  output_filename := None; package_filter := None;
  ascii_tree := false; no_ascii_tree := false;
  test_mode := false; no_test_mode := false
|}.

(** No flag but [--config path]. *)
Definition only_config (path : string) : Namespace := {|
  config := path; create_config := false;
  package_name := None; repository_url := None;
  output_filename := None; package_filter := None;
  ascii_tree := false; no_ascii_tree := false;
  test_mode := false; no_test_mode := false
|}.

(** [--ascii-tree --no-ascii-tree --test-mode], as no parser would pass
    them on. *)
Definition both_tree_flags : Namespace := {|
  config := "config.json"; create_config := false;
  package_name := None; repository_url := None;
  output_filename := None; package_filter := None;
  ascii_tree := true; no_ascii_tree := true;
  test_mode := true; no_test_mode := false
|}.

(** Every required parameter given on the command line. *)
Definition all_given : Namespace := {|
  config := "config.json"; create_config := false;
  package_name := Some "react"; repository_url := Some "https://example.org/repo";
  output_filename := Some "graph.png"; package_filter := None;
  ascii_tree := true; no_ascii_tree := false;
  test_mode := false; no_test_mode := true
|}.

(** Every required parameter is there, the package name is blank and the
    rest is odd. *)
Definition blank_name : dict :=
  [ ("package_name", VStr "  ");
    ("repository_url", VInt 7);
    ("test_repository_mode", VBool true);
    ("output_filename", VNone);
    ("ascii_tree_output", VNone) ].

End MoreSamples.

(* ===================================================================== *)
(** * Dictionaries: lookup after update *)
(* ===================================================================== *)

Lemma dict_mem_get (k : string) (d : dict) :
  Dict.mem k d = match Dict.get k d with Some _ => true | None => false end.
Proof.
  induction d as [|[k' v] d IH]; simpl; [reflexivity|].
  destruct (String.eqb k k'); simpl; [reflexivity | exact IH].
Qed.

Lemma dict_get_set (k k' : string) (x : value) (d : dict) :
  Dict.get k (Dict.set k' x d) = if String.eqb k k' then Some x else Dict.get k d.
Proof.
  induction d as [|[k0 v0] d IH]; simpl.
  - destruct (String.eqb k k'); reflexivity.
  - destruct (String.eqb_spec k' k0) as [->|Hne]; simpl.
    + destruct (String.eqb k k0); reflexivity.
    + rewrite IH. destruct (String.eqb_spec k k') as [->|Hne'].
      * apply String.eqb_neq in Hne. rewrite Hne. reflexivity.
      * reflexivity.
Qed.

Lemma dict_get_set_ne (k k' : string) (x : value) (d : dict) :
  k <> k' -> Dict.get k (Dict.set k' x d) = Dict.get k d.
Proof.
  intros Hne. rewrite dict_get_set.
  apply String.eqb_neq in Hne. rewrite Hne. reflexivity.
Qed.

Lemma dict_mem_set_ne (k k' : string) (x : value) (d : dict) :
  k <> k' -> Dict.mem k (Dict.set k' x d) = Dict.mem k d.
Proof.
  intros Hne. rewrite !dict_mem_get, dict_get_set_ne by exact Hne. reflexivity.
Qed.

(* ===================================================================== *)
(** * Running computations *)
(* ===================================================================== *)

Section Running.
Context {FS : Type}.

Lemma run_bind {A B} (m : M FS A) (f : A -> M FS B) (w : world FS) :
  (m ≫= f) w =
  match m w with
  | (Ok a, w') => f a w'
  | (Raise e, w') => (Raise e, w')
  end.
Proof. reflexivity. Qed.

Lemma run_ret {A} (a : A) (w : world FS) : (mret a : M FS A) w = (Ok a, w).
Proof. reflexivity. Qed.

Lemma run_raise {A} (e : exn) (w : world FS) : (raise e : M FS A) w = (Raise e, w).
Proof. reflexivity. Qed.

Lemma read_only_ret {A} (a : A) : read_only (mret a : M FS A).
Proof. intros w. reflexivity. Qed.

Lemma read_only_raise {A} (e : exn) : read_only (raise e : M FS A).
Proof. intros w. reflexivity. Qed.

Lemma read_only_bind {A B} (m : M FS A) (f : A -> M FS B) :
  read_only m -> (forall a, read_only (f a)) -> read_only (m ≫= f).
Proof.
  intros Hm Hf w. rewrite run_bind. specialize (Hm w).
  destruct (m w) as [[a|e] w']; simpl in Hm; subst w'; [apply Hf | reflexivity].
Qed.

Lemma read_only_if {A} (c : bool) (m1 m2 : M FS A) :
  read_only m1 -> read_only m2 -> read_only (if c then m1 else m2).
Proof. destruct c; auto. Qed.

Lemma read_only_deref (r : loc) : read_only (deref (FS:=FS) r).
Proof. intros w. unfold deref. destruct (heap w !! r); reflexivity. Qed.

Lemma read_only_py_in (k : string) (r : loc) : read_only (py_in (FS:=FS) k r).
Proof.
  apply read_only_bind; [apply read_only_deref|].
  intros []; first [apply read_only_ret | apply read_only_raise].
Qed.

Lemma read_only_getitem (r : loc) (k : string) : read_only (getitem (FS:=FS) r k).
Proof.
  apply read_only_bind; [apply read_only_deref|].
  intros []; try apply read_only_raise.
  destruct (Dict.get k d); [apply read_only_ret | apply read_only_raise].
Qed.

Lemma read_only_for_each {A} (l : list A) (body : A -> M FS unit) :
  (forall x, read_only (body x)) -> read_only (for_each l body).
Proof.
  intros Hbody. induction l as [|x l IH]; simpl.
  - apply read_only_ret.
  - apply read_only_bind; [apply Hbody | intros _; exact IH].
Qed.

(** ** Operations on a reference that holds a dictionary *)

Lemma py_in_dict (k : string) (r : loc) (w : world FS) (d : dict) :
  heap w !! r = Some (VDict d) -> py_in k r w = (Ok (Dict.mem k d), w).
Proof. intros H. unfold py_in. rewrite run_bind. unfold deref. rewrite H. reflexivity. Qed.

Lemma getitem_dict (k : string) (r : loc) (w : world FS) (d : dict) (x : value) :
  heap w !! r = Some (VDict d) -> Dict.get k d = Some x ->
  getitem r k w = (Ok x, w).
Proof.
  intros H Hk. unfold getitem. rewrite run_bind. unfold deref. rewrite H, Hk.
  reflexivity.
Qed.

End Running.

Create HintDb read_only.
#[global] Hint Resolve read_only_ret read_only_raise read_only_deref
  read_only_py_in read_only_getitem : read_only.

(* ===================================================================== *)
(** * validate_configuration *)
(* ===================================================================== *)

Lemma find_ext {A} (f g : A -> bool) (l : list A) :
  (forall x, x ∈ l -> f x = g x) -> List.find f l = List.find g l.
Proof.
  induction l as [|x l IH]; intros Hfg; simpl; [reflexivity|].
  rewrite <- (Hfg x) by apply list_elem_of_here.
  destruct (f x); [reflexivity|].
  apply IH. intros y Hy. apply Hfg. apply list_elem_of_further. exact Hy.
Qed.

Lemma find_none_all {A} (f : A -> bool) (l : list A) :
  List.find f l = None <-> (forall x, x ∈ l -> f x = false).
Proof.
  induction l as [|x l IH]; simpl.
  - split; [intros _ y Hy; inversion Hy | reflexivity].
  - destruct (f x) eqn:Hx.
    + split; [discriminate|]. intros H.
      rewrite (H x) in Hx by apply list_elem_of_here. discriminate.
    + rewrite IH. split.
      * intros H y Hy. apply elem_of_cons in Hy as [->|Hy]; auto.
      * intros H y Hy. apply H. apply list_elem_of_further. exact Hy.
Qed.

(** The first element of a list with a property, with what stands before
    and after it. *)
Lemma find_first_split {A} (f : A -> bool) (l : list A) (p : A) :
  List.find f l = Some p <->
  exists before after,
    l = (before ++ p :: after)%list /\ (forall q, q ∈ before -> f q = false) /\ f p = true.
Proof.
  revert p. induction l as [|x l IH]; intros p; simpl.
  - split; [discriminate|]. intros (before & after & Hl & _).
    destruct before; discriminate.
  - destruct (f x) eqn:Hx.
    + split.
      * intros [= <-]. exists [], l. split; [reflexivity|].
        split; [intros q Hq; inversion Hq | exact Hx].
      * intros (before & after & Hl & Hb & Hp).
        destruct before as [|y before]; simpl in Hl.
        -- injection Hl as -> _. reflexivity.
        -- injection Hl as -> _.
           rewrite (Hb y) in Hx by apply list_elem_of_here. discriminate.
    + rewrite IH. split.
      * intros (before & after & -> & Hb & Hp).
        exists (x :: before), after. split; [reflexivity|]. split; [|exact Hp].
        intros q Hq. apply elem_of_cons in Hq as [->|Hq]; auto.
      * intros (before & after & Hl & Hb & Hp).
        destruct before as [|y before]; simpl in Hl.
        -- injection Hl as -> _. rewrite Hp in Hx. discriminate.
        -- injection Hl as -> ->. exists before, after.
           split; [reflexivity|]. split; [|exact Hp].
           intros q Hq. apply Hb. apply list_elem_of_further. exact Hq.
Qed.

Section Validation.
Context {FS : Type}.
Implicit Types (w : world FS) (r : loc) (d : dict).

(** The presence loop stops at the first parameter that is absent. *)
Lemma presence_loop (params : list string) w r d :
  heap w !! r = Some (VDict d) ->
  for_each params (fun param =>
    present ← py_in param r;
    if negb present then raise (missing param) else mret tt) w
  = (match List.find (fun p => negb (Dict.mem p d)) params with
     | Some p => Raise (missing p)
     | None => Ok tt
     end, w).
Proof.
  intros H. induction params as [|p params IH]; simpl; [reflexivity|].
  rewrite !run_bind, (py_in_dict _ _ _ _ H).
  destruct (Dict.mem p d); simpl; [exact IH | reflexivity].
Qed.

Lemma validate_absent w r d (p : string) :
  heap w !! r = Some (VDict d) ->
  List.find (fun q => negb (Dict.mem q d)) required_params = Some p ->
  validate_configuration r w = (Raise (missing p), w).
Proof.
  intros H Hfind. unfold validate_configuration.
  rewrite run_bind.
  change (for_each required_params _ w) with
    (for_each required_params (fun param =>
       present ← py_in param r;
       if negb present then raise (missing param) else mret tt) w).
  rewrite (presence_loop _ _ _ _ H), Hfind. reflexivity.
Qed.

(** The verdict on a dictionary that has every required parameter. *)
Lemma validate_present w r d (name mode url : value) :
  heap w !! r = Some (VDict d) ->
  List.find (fun q => negb (Dict.mem q d)) required_params = None ->
  Dict.get "package_name" d = Some name ->
  Dict.get "test_repository_mode" d = Some mode ->
  Dict.get "repository_url" d = Some url ->
  validate_configuration r w =
  (if not_str_or_blank name then Raise bad_package_name
   else if truthy mode then
     if Dict.mem "test_repository_path" d then Ok tt else Raise missing_test_path
   else if not_str_or_blank url then Raise bad_repository_url else Ok tt, w).
Proof.
  intros H Hfind Hname Hmode Hurl. unfold validate_configuration.
  rewrite run_bind.
  change (for_each required_params _ w) with
    (for_each required_params (fun param =>
       present ← py_in param r;
       if negb present then raise (missing param) else mret tt) w).
  rewrite (presence_loop _ _ _ _ H), Hfind.
  rewrite run_bind, (getitem_dict _ _ _ _ _ H Hname).
  rewrite run_bind.
  destruct (not_str_or_blank name); [reflexivity|].
  rewrite run_ret, run_bind, (getitem_dict _ _ _ _ _ H Hmode).
  destruct (truthy mode).
  - rewrite run_bind, (py_in_dict _ _ _ _ H).
    destruct (Dict.mem "test_repository_path" d); reflexivity.
  - rewrite run_bind, (getitem_dict _ _ _ _ _ H Hurl).
    destruct (not_str_or_blank url); reflexivity.
Qed.

Lemma present_get (k : string) d :
  Dict.mem k d = true -> exists x, Dict.get k d = Some x.
Proof.
  rewrite dict_mem_get. destruct (Dict.get k d) as [x|]; [eauto | discriminate].
Qed.

Lemma all_present_find d :
  (forall q, q ∈ required_params -> Dict.mem q d = true) ->
  List.find (fun q => negb (Dict.mem q d)) required_params = None.
Proof.
  intros Hall. apply find_none_all. intros q Hq. rewrite (Hall q Hq). reflexivity.
Qed.

End Validation.

(* ===================================================================== *)
(** * Blank texts *)
(* ===================================================================== *)

Lemma drop_while_all {A} (p : A -> bool) (l : list A) :
  forallb p l = true -> Text.drop_while p l = [].
Proof.
  induction l as [|x l IH]; simpl; [reflexivity|].
  destruct (p x); simpl; [exact IH | discriminate].
Qed.

Lemma drop_while_some {A} (p : A -> bool) (l : list A) :
  forallb p l = false ->
  exists x l', Text.drop_while p l = x :: l' /\ p x = false.
Proof.
  induction l as [|x l IH]; simpl; [discriminate|].
  destruct (p x) eqn:Hx; simpl; [exact IH | eauto].
Qed.

Lemma drop_while_Forall {A} (P : A -> Prop) (p : A -> bool) (l : list A) :
  Forall P l -> Forall P (Text.drop_while p l).
Proof.
  induction 1 as [|x l Hx Hl IH]; simpl; [constructor|].
  destruct (p x); [exact IH | constructor; assumption].
Qed.

Lemma code_points_nonempty (s : string) :
  Forall (fun cp => cp <> "") (Text.code_points s).
Proof.
  induction s as [|c s IH]; simpl; [constructor|].
  destruct (Text.code_points s) as [|cp rest]; [repeat constructor; discriminate|].
  inversion IH; subst.
  destruct (Text.starts_with_continuation cp); repeat constructor;
    try discriminate; assumption.
Qed.

Lemma concat_nonempty (l : list string) :
  l <> [] -> Forall (fun cp => cp <> "") l -> String.concat "" l <> "".
Proof.
  destruct l as [|a l]; [congruence|]. intros _ Hall.
  inversion Hall as [|? ? Ha _]; subst.
  destruct a as [|c a]; [congruence|].
  destruct l; simpl; discriminate.
Qed.

(** [strip] leaves nothing exactly of the texts made of white space only,
    the empty text among them. *)
Lemma strip_empty_iff_blank (s : string) :
  String.eqb (Text.strip s) "" = Text.blank s.
Proof.
  unfold Text.strip, Text.blank.
  destruct (forallb Text.isspace (Text.code_points s)) eqn:Hall.
  - rewrite (drop_while_all _ _ Hall). reflexivity.
  - apply String.eqb_neq.
    destruct (drop_while_some _ _ Hall) as (x & l' & Hdrop & Hx).
    rewrite Hdrop.
    assert (Hrev : forallb Text.isspace (rev (x :: l')) = false).
    { simpl. apply not_true_is_false. intros Hf.
      apply forallb_forall with (x := x) in Hf; [congruence|].
      apply in_or_app. right. left. reflexivity. }
    destruct (drop_while_some _ _ Hrev) as (y & l'' & Hdrop' & _).
    apply concat_nonempty.
    + rewrite Hdrop'. simpl. intros Hnil. apply app_eq_nil in Hnil as [_ Hnil].
      discriminate.
    + apply Forall_rev, drop_while_Forall, Forall_rev.
      rewrite <- Hdrop. apply drop_while_Forall, code_points_nonempty.
Qed.

Lemma not_str_or_blank_str (s : string) : not_str_or_blank (VStr s) = Text.blank s.
Proof.
  unfold not_str_or_blank, truthy. rewrite strip_empty_iff_blank.
  apply negb_involutive.
Qed.

(* ===================================================================== *)
(** * merge_configs *)
(* ===================================================================== *)

Section Merging.
Context {FS : Type}.
Implicit Types (w : world FS) (r : loc) (d : dict).

Lemma set_if_last (h : list value) (f : FS) (o : list string) d
    (c : bool) (k : string) (x : value) :
  set_if c (length h) k x (World (h ++ [VDict d]) f o)
  = (Ok tt, World (h ++ [VDict (set_when c k x d)]) f o).
Proof.
  destruct c; [|reflexivity].
  unfold set_if, setitem, set_when. rewrite run_bind. unfold deref. simpl heap.
  rewrite list_lookup_middle by reflexivity.
  unfold store. simpl heap. simpl files. simpl stdout.
  rewrite insert_app_r_alt by lia. rewrite Nat.sub_diag. reflexivity.
Qed.

(** [merge_configs] returns a new object that holds the file dictionary
    with the overrides applied, and touches nothing else. *)
Lemma merge_configs_run w r d (cli : Namespace) :
  heap w !! r = Some (VDict d) ->
  merge_configs r cli w
  = (Ok (length (heap w)),
     World (heap w ++ [VDict (overrides cli d)]) (files w) (stdout w)).
Proof.
  intros H. unfold merge_configs, overrides.
  rewrite run_bind. unfold py_copy. rewrite run_bind. unfold deref. rewrite H.
  unfold alloc.
  repeat (rewrite run_bind, set_if_last).
  reflexivity.
Qed.

Lemma get_set_when (k k' : string) (c : bool) (x : value) d :
  Dict.get k (set_when c k' x d)
  = if c && String.eqb k k' then Some x else Dict.get k d.
Proof.
  unfold set_when. destruct c; simpl; [apply dict_get_set | reflexivity].
Qed.

Lemma overrides_other (cli : Namespace) d (k : string) :
  k ∉ override_targets -> Dict.get k (overrides cli d) = Dict.get k d.
Proof.
  intros Hk. unfold overrides. rewrite !get_set_when.
  unfold override_targets in Hk. rewrite !not_elem_of_cons in Hk.
  destruct Hk as (H1%String.eqb_neq & H2%String.eqb_neq & H3%String.eqb_neq
                  & H4%String.eqb_neq & H5%String.eqb_neq & H6%String.eqb_neq & _).
  rewrite H1, H2, H3, H4, H5, H6, !andb_false_r. reflexivity.
Qed.

End Merging.

(* ===================================================================== *)
(** * Properties of validate_configuration *)
(* ===================================================================== *)

(** Membership in a list that is written out. *)
Ltac in_list :=
  cbv [validated_keys required_params override_targets app];
  repeat first [apply list_elem_of_here | apply list_elem_of_further].

Section ValidationProperties.
Context {FS : Type}.
Implicit Types (w : world FS) (r : loc) (d : dict).

Lemma read_only_validate r : read_only (validate_configuration (FS:=FS) r).
Proof.
  unfold validate_configuration.
  apply read_only_bind.
  { apply read_only_for_each. intros param.
    apply read_only_bind; [auto with read_only|].
    intros present. apply read_only_if; auto with read_only. }
  intros _. apply read_only_bind; [auto with read_only|].
  intros name. apply read_only_bind; [apply read_only_if; auto with read_only|].
  intros _. apply read_only_bind; [auto with read_only|].
  intros mode. apply read_only_if.
  - apply read_only_bind; [auto with read_only|].
    intros present. apply read_only_if; auto with read_only.
  - apply read_only_bind; [auto with read_only|].
    intros url. apply read_only_if; auto with read_only.
Qed.

(** Two dictionaries with the same entries under the keys that
    [validate_configuration] looks at get the same verdict. *)
Lemma validate_agree (w1 w2 : world FS) (r1 r2 : loc) (d1 d2 : dict) :
  heap w1 !! r1 = Some (VDict d1) ->
  heap w2 !! r2 = Some (VDict d2) ->
  (forall k, k ∈ validated_keys -> Dict.get k d1 = Dict.get k d2) ->
  (validate_configuration r1 w1).1 = (validate_configuration r2 w2).1.
Proof.
  intros H1 H2 Hagree.
  assert (Hmem : forall k, k ∈ validated_keys -> Dict.mem k d1 = Dict.mem k d2).
  { intros k Hk. rewrite !dict_mem_get, (Hagree k Hk). reflexivity. }
  assert (Hreq : forall k, k ∈ required_params -> k ∈ validated_keys).
  { intros k Hk. unfold validated_keys. apply elem_of_app. left. exact Hk. }
  assert (Hfind : List.find (fun q => negb (Dict.mem q d1)) required_params
                  = List.find (fun q => negb (Dict.mem q d2)) required_params).
  { apply find_ext. intros k Hk. rewrite (Hmem k (Hreq k Hk)). reflexivity. }
  destruct (List.find (fun q => negb (Dict.mem q d1)) required_params) as [p|] eqn:Hf1.
  - rewrite (validate_absent _ _ _ _ H1 Hf1).
    rewrite (validate_absent _ _ _ _ H2 (eq_sym Hfind)). reflexivity.
  - assert (Hall : forall q, q ∈ required_params -> Dict.mem q d1 = true).
    { intros q Hq. apply negb_false_iff.
      exact (proj1 (find_none_all _ _) Hf1 q Hq). }
    destruct (present_get "package_name" d1) as [name Hname];
      [apply Hall; in_list|].
    destruct (present_get "test_repository_mode" d1) as [mode Hmode];
      [apply Hall; in_list|].
    destruct (present_get "repository_url" d1) as [url Hurl];
      [apply Hall; in_list|].
    rewrite (validate_present _ _ _ _ _ _ H1 Hf1 Hname Hmode Hurl).
    rewrite (Hagree "package_name") in Hname by in_list.
    rewrite (Hagree "test_repository_mode") in Hmode by in_list.
    rewrite (Hagree "repository_url") in Hurl by in_list.
    rewrite (validate_present _ _ _ _ _ _ H2 (eq_sym Hfind) Hname Hmode Hurl).
    rewrite (Hmem "test_repository_path") by in_list. reflexivity.
Qed.

(** C2: when a required parameter is absent, [validate_configuration]
    raises the one error that names the first absent parameter in the order
    package_name, repository_url, test_repository_mode, output_filename,
    ascii_tree_output; so a configuration without package_name gets the
    package_name error, whatever else it lacks. *)
Theorem validate_reports_first_missing_field w r d :
  heap w !! r = Some (VDict d) ->
  (exists q, q ∈ required_params /\ Dict.mem q d = false) ->
  required_params
  = ["package_name"; "repository_url"; "test_repository_mode";
     "output_filename"; "ascii_tree_output"]
  /\ (exists before p after,
        required_params = (before ++ p :: after)%list
        /\ (forall q, q ∈ before -> Dict.mem q d = true)
        /\ Dict.mem p d = false
        /\ validate_configuration r w
           = (Raise (Exn ValueError ("Отсутствует обязательный параметр: " +:+ p)), w))
  /\ (Dict.mem "package_name" d = false ->
      validate_configuration r w
      = (Raise (Exn ValueError "Отсутствует обязательный параметр: package_name"), w)).
Proof.
  intros H (q & Hq & Habsent). split; [reflexivity|]. split.
  - destruct (List.find (fun q => negb (Dict.mem q d)) required_params) as [p|] eqn:Hfind.
    + destruct (proj1 (find_first_split _ _ _) Hfind) as (before & after & Hl & Hb & Hp).
      exists before, p, after. split; [exact Hl|]. split; [|split].
      * intros q' Hq'. apply negb_false_iff, Hb, Hq'.
      * apply negb_true_iff, Hp.
      * apply (validate_absent _ _ _ _ H Hfind).
    + pose proof (proj1 (find_none_all _ _) Hfind q Hq) as Hpresent.
      simpl in Hpresent. rewrite Habsent in Hpresent. discriminate.
  - intros Hname. apply (validate_absent _ _ _ _ H).
    simpl. rewrite Hname. reflexivity.
Qed.

(** C3 (amended): for a configuration with every required parameter and a
    valid package_name: with test_repository_mode true and no
    test_repository_path, validation raises the error that names
    test_repository_path; with test_repository_mode false, validation
    raises the repository-URL error exactly when repository_url is not a
    string or is a string of white space only (the empty string included),
    and passes exactly when it is a string with a character that is not
    white space. *)
Theorem validate_conditional_requirement w r d (name : value) :
  heap w !! r = Some (VDict d) ->
  (forall q, q ∈ required_params -> Dict.mem q d = true) ->
  Dict.get "package_name" d = Some name ->
  not_str_or_blank name = false ->
  (Dict.get "test_repository_mode" d = Some (VBool true) ->
   Dict.mem "test_repository_path" d = false ->
   validate_configuration r w = (Raise missing_test_path, w))
  /\ (Dict.get "test_repository_mode" d = Some (VBool false) ->
      forall url, Dict.get "repository_url" d = Some url ->
        (validate_configuration r w = (Raise bad_repository_url, w)
         <-> match url with VStr s => Text.blank s = true | _ => True end)
        /\ (validate_configuration r w = (Ok tt, w)
            <-> exists s, url = VStr s /\ Text.blank s = false)).
Proof.
  intros H Hall Hname Hvalid.
  pose proof (all_present_find d Hall) as Hfind.
  destruct (present_get "repository_url" d) as [url0 Hurl0]; [apply Hall; in_list|].
  split.
  - intros Hmode Hpath.
    rewrite (validate_present _ _ _ _ _ _ H Hfind Hname Hmode Hurl0).
    rewrite Hvalid. simpl. rewrite Hpath. reflexivity.
  - intros Hmode url Hurl.
    rewrite (validate_present _ _ _ _ _ _ H Hfind Hname Hmode Hurl).
    rewrite Hvalid. simpl truthy. cbv iota.
    destruct url as [| | | |s| |].
    5: { rewrite not_str_or_blank_str.
         destruct (Text.blank s) eqn:Hblank; split; split;
           try tauto; try discriminate.
         - intros (s' & [= <-] & Hs'). congruence.
         - intros _. exists s. split; [reflexivity | exact Hblank]. }
    all: simpl not_str_or_blank; split; split;
      [tauto | reflexivity | discriminate | intros (s & Hs & _); discriminate].
Qed.

(** C9: [validate_configuration] does not check the type of
    test_repository_mode; for a configuration with every required parameter
    and a valid package_name, any value that counts as true (a non-empty
    string, say) leads to the test-repository branch, which requires
    test_repository_path, and any value that counts as false (0, the empty
    string, None, not only False) leads to the branch that checks
    repository_url, which passes only for a non-empty string. *)
Theorem validate_mode_truthiness w r d (name mode : value) :
  heap w !! r = Some (VDict d) ->
  (forall q, q ∈ required_params -> Dict.mem q d = true) ->
  Dict.get "package_name" d = Some name ->
  not_str_or_blank name = false ->
  Dict.get "test_repository_mode" d = Some mode ->
  (truthy mode = true ->
   validate_configuration r w
   = (if Dict.mem "test_repository_path" d then Ok tt else Raise missing_test_path, w))
  /\ (truthy mode = false ->
      forall url, Dict.get "repository_url" d = Some url ->
        validate_configuration r w
        = (if not_str_or_blank url then Raise bad_repository_url else Ok tt, w)
        /\ (validate_configuration r w = (Ok tt, w) ->
            exists s, url = VStr s /\ s <> ""))
  /\ (forall s, s <> "" -> truthy (VStr s) = true)
  /\ truthy (VInt 0) = false /\ truthy (VStr "") = false /\ truthy VNone = false.
Proof.
  intros H Hall Hname Hvalid Hmode.
  pose proof (all_present_find d Hall) as Hfind.
  destruct (present_get "repository_url" d) as [url0 Hurl0]; [apply Hall; in_list|].
  split; [|split].
  - intros Htrue.
    rewrite (validate_present _ _ _ _ _ _ H Hfind Hname Hmode Hurl0).
    rewrite Hvalid, Htrue. reflexivity.
  - intros Hfalse url Hurl.
    rewrite (validate_present _ _ _ _ _ _ H Hfind Hname Hmode Hurl).
    rewrite Hvalid, Hfalse. split; [reflexivity|].
    destruct url as [| | | |s| |].
    5: { destruct s as [|c s]; [vm_compute; discriminate|].
         intros _. exists (String c s). split; [reflexivity | discriminate]. }
    all: simpl not_str_or_blank; discriminate.
  - split; [|repeat split].
    intros s Hs. simpl. apply negb_true_iff, String.eqb_neq, Hs.
Qed.

(** C10: [validate_configuration] changes nothing: whether it returns or
    raises, and whatever its argument refers to, the heap (so the
    configuration it was given), the files and the output are after the
    call what they were before it. *)
Theorem validate_changes_nothing w r :
  (validate_configuration r w).2 = w.
Proof. apply read_only_validate. Qed.

End ValidationProperties.

(* ===================================================================== *)
(** * Properties of merge_configs *)
(* ===================================================================== *)

Section MergeProperties.
Context {FS : Type}.
Implicit Types (w : world FS) (r : loc) (d : dict).

Lemma merged_lookup w (v : value) :
  heap (World (heap w ++ [v]) (files w) (stdout w)) !! length (heap w) = Some v.
Proof. simpl. apply list_lookup_middle. reflexivity. Qed.

Lemma overrides_none (cli : Namespace) d : no_overrides cli -> overrides cli d = d.
Proof.
  intros (Hn & Hu & Ho & Hf & Ha & Hna & Ht & Hnt). unfold overrides.
  rewrite Hn, Hu, Ho, Hf, Ha, Hna, Ht, Hnt. reflexivity.
Qed.

(** C1: merging a file configuration with a command line that overrides
    nothing (no override given, every toggle false, package_filter
    absent) gives a configuration equal to the file configuration. *)
Theorem merge_without_overrides w r d (cli : Namespace) :
  heap w !! r = Some (VDict d) ->
  no_overrides cli ->
  exists r' w',
    merge_configs r cli w = (Ok r', w') /\ heap w' !! r' = Some (VDict d).
Proof.
  intros H Hcli.
  eexists _, _. split; [apply (merge_configs_run _ _ _ _ H)|].
  rewrite merged_lookup, (overrides_none _ _ Hcli). reflexivity.
Qed.

(** C4: in the merged configuration each of package_name, repository_url
    and output_filename has the command-line value when that value is a
    non-empty string, and the file's entry otherwise (no flag, or an empty
    string); so file package_name "a" with --package-name b gives "b". *)
Theorem merge_string_overrides w r d (cli : Namespace) :
  heap w !! r = Some (VDict d) ->
  exists r' w' d',
    merge_configs r cli w = (Ok r', w')
    /\ heap w' !! r' = Some (VDict d')
    /\ Dict.get "package_name" d'
       = match package_name cli with
         | Some s => if String.eqb s "" then Dict.get "package_name" d else Some (VStr s)
         | None => Dict.get "package_name" d
         end
    /\ Dict.get "repository_url" d'
       = match repository_url cli with
         | Some s => if String.eqb s "" then Dict.get "repository_url" d else Some (VStr s)
         | None => Dict.get "repository_url" d
         end
    /\ Dict.get "output_filename" d'
       = match output_filename cli with
         | Some s => if String.eqb s "" then Dict.get "output_filename" d else Some (VStr s)
         | None => Dict.get "output_filename" d
         end
    /\ (Dict.get "package_name" d = Some (VStr "a") ->
        package_name cli = Some "b" ->
        Dict.get "package_name" d' = Some (VStr "b")).
Proof.
  intros H. eexists _, _, _.
  split; [apply (merge_configs_run _ _ _ _ H)|].
  split; [apply merged_lookup|].
  unfold overrides. rewrite !get_set_when. simpl String.eqb.
  rewrite !andb_false_r, !andb_true_r.
  repeat split.
  - destruct (package_name cli) as [s|]; simpl; [destruct (String.eqb s "")|]; reflexivity.
  - destruct (repository_url cli) as [s|]; simpl; [destruct (String.eqb s "")|]; reflexivity.
  - destruct (output_filename cli) as [s|]; simpl; [destruct (String.eqb s "")|]; reflexivity.
  - intros _ ->. reflexivity.
Qed.

(** C5: in the merged configuration package_filter has the command-line
    value whenever --package-filter was given, the empty string included,
    and the file's entry when the flag was not given. *)
Theorem merge_package_filter w r d (cli : Namespace) :
  heap w !! r = Some (VDict d) ->
  exists r' w' d',
    merge_configs r cli w = (Ok r', w')
    /\ heap w' !! r' = Some (VDict d')
    /\ Dict.get "package_filter" d'
       = match package_filter cli with
         | Some s => Some (VStr s)
         | None => Dict.get "package_filter" d
         end
    /\ (package_filter cli = Some "" -> Dict.get "package_filter" d' = Some (VStr "")).
Proof.
  intros H. eexists _, _, _.
  split; [apply (merge_configs_run _ _ _ _ H)|].
  split; [apply merged_lookup|].
  unfold overrides. rewrite !get_set_when. simpl String.eqb.
  rewrite !andb_false_r, !andb_true_r.
  split.
  - destruct (package_filter cli) as [s|]; reflexivity.
  - intros ->. reflexivity.
Qed.

Lemma default_keys_cover_targets (k : string) :
  k ∈ override_targets -> k ∈ Dict.keys default_config.
Proof.
  unfold override_targets. rewrite !elem_of_cons, elem_of_nil.
  intros [->|[->|[->|[->|[->|[->|[]]]]]]]; cbv [Dict.keys default_config map fst];
    repeat first [apply list_elem_of_here | apply list_elem_of_further].
Qed.

(** C8: [merge_configs] returns a new mapping and leaves the file mapping
    (and every other object, the files and the output) as it was; every key
    other than the ones it can assign, so every key other than the seven
    configuration keys, has in the result the entry it has in the file
    mapping, a key the program does not know included; and such a key does
    not change [validate_configuration]'s verdict. *)
Theorem merge_frame w r d (cli : Namespace) :
  heap w !! r = Some (VDict d) ->
  exists r' w' d',
    merge_configs r cli w = (Ok r', w')
    /\ heap w !! r' = None /\ r' <> r
    /\ heap w' !! r = Some (VDict d)
    /\ (forall l, l <> r' -> heap w' !! l = heap w !! l)
    /\ files w' = files w /\ stdout w' = stdout w
    /\ heap w' !! r' = Some (VDict d')
    /\ (forall k, k ∉ override_targets -> Dict.get k d' = Dict.get k d)
    /\ (forall k, k ∉ Dict.keys default_config -> Dict.get k d' = Dict.get k d)
    /\ (forall k x (w2 : world FS) r2,
          k ∉ validated_keys ->
          heap w2 !! r2 = Some (VDict (Dict.set k x d)) ->
          (validate_configuration r2 w2).1 = (validate_configuration r w).1).
Proof.
  intros H. pose proof (lookup_lt_Some _ _ _ H) as Hlt.
  exists (length (heap w)), (World (heap w ++ [VDict (overrides cli d)]) (files w) (stdout w)),
    (overrides cli d).
  split; [apply (merge_configs_run _ _ _ _ H)|].
  split; [apply lookup_ge_None_2; lia|].
  split; [lia|].
  split; [simpl; rewrite lookup_app_l by exact Hlt; exact H|].
  split.
  { intros l Hl. simpl.
    destruct (decide (l < length (heap w))%nat) as [Hin|Hout].
    - apply lookup_app_l. exact Hin.
    - rewrite !lookup_ge_None_2; [reflexivity | lia |].
      rewrite length_app. simpl. lia. }
  split; [reflexivity|]. split; [reflexivity|].
  split; [apply merged_lookup|].
  split; [intros k Hk; apply overrides_other, Hk|].
  split.
  { intros k Hk. apply overrides_other. intros Hin.
    apply Hk, default_keys_cover_targets, Hin. }
  intros k x w2 r2 Hk H2.
  apply (validate_agree _ _ _ _ _ _ H2 H). intros k' Hk'.
  apply dict_get_set_ne. intros ->. exact (Hk Hk').
Qed.

End MergeProperties.

(* ===================================================================== *)
(** * Properties of load_configuration and create_default_config *)
(* ===================================================================== *)

Lemma issubclass_Exception (c : exn_class) : issubclass c Exception = true.
Proof. destruct c; reflexivity. Qed.

(** The text [create_default_config] writes is read back as the default
    mapping, keys in the same order. *)
Lemma default_config_decodes `{!FloatCodec} :
  JSON.loads (JSON.dumps 4 (VDict default_config)) = Ok (VDict default_config).
Proof. vm_compute. reflexivity. Qed.

Lemma default_config_text_no_cr `{!FloatCodec} :
  Text.has_cr (JSON.dumps 4 (VDict default_config)) = false.
Proof. vm_compute. reflexivity. Qed.

Section LoadProperties.
Context {FS : Type} `{!FileSystem FS} `{!FloatCodec}.
Implicit Types (w : world FS) (r : loc) (d : dict).

Lemma load_missing w (path : string) :
  path_exists (files w) path = false ->
  load_configuration path w
  = (Raise (Exn FileNotFoundError
              ("Конфигурационный файл '" +:+ path +:+ "' не найден")), w).
Proof.
  intros Hex. unfold load_configuration, try_except.
  rewrite run_bind. unfold os_path_exists. rewrite Hex. reflexivity.
Qed.

Lemma load_read w (path : string) :
  path_exists (files w) path = true ->
  load_configuration path w
  = match read_text (files w) path with
    | Ok text =>
        match JSON.loads text with
        | Ok v => (Ok (length (heap w)), World (heap w ++ [v]) (files w) (stdout w))
        | Raise e =>
            if issubclass (exn_class_of e) FileNotFoundError then (Raise e, w)
            else if issubclass (exn_class_of e) JSONDecodeError then
              (Raise (Exn ValueError
                        ("Ошибка парсинга JSON в файле '" +:+ path +:+ "': "
                         +:+ exn_str e)), w)
            else
              (Raise (Exn RuntimeError
                        ("Неожиданная ошибка при загрузке конфигурации: "
                         +:+ exn_str e)), w)
        end
    | Raise e =>
        if issubclass (exn_class_of e) FileNotFoundError then (Raise e, w)
        else if issubclass (exn_class_of e) JSONDecodeError then
          (Raise (Exn ValueError
                    ("Ошибка парсинга JSON в файле '" +:+ path +:+ "': "
                     +:+ exn_str e)), w)
        else
          (Raise (Exn RuntimeError
                    ("Неожиданная ошибка при загрузке конфигурации: "
                     +:+ exn_str e)), w)
    end.
Proof.
  intros Hex. unfold load_configuration, try_except.
  rewrite run_bind. unfold os_path_exists. rewrite Hex.
  change (negb true) with false. cbv iota.
  rewrite run_bind. unfold json_load. rewrite run_bind. unfold read_file.
  destruct (read_text (files w) path) as [text|e].
  - destruct (JSON.loads text) as [v|e]; [reflexivity|].
    rewrite run_raise.
    destruct (issubclass (exn_class_of e) FileNotFoundError); [reflexivity|].
    destruct (issubclass (exn_class_of e) JSONDecodeError); [reflexivity|].
    rewrite issubclass_Exception. reflexivity.
  - destruct (issubclass (exn_class_of e) FileNotFoundError); [reflexivity|].
    destruct (issubclass (exn_class_of e) JSONDecodeError); [reflexivity|].
    rewrite issubclass_Exception. reflexivity.
Qed.

(** C7: [load_configuration] raises FileNotFoundError when the path does
    not exist; when the file is there and its text is not valid JSON it
    raises a ValueError, a class apart from the other two, whose message
    carries the decoder's message; when reading fails for another reason it
    raises a RuntimeError whose message carries the cause; and otherwise it
    returns a new object holding exactly what the decoder produced, with no
    check of its keys or shape. *)
Theorem load_configuration_outcomes w (path : string) :
  (path_exists (files w) path = false ->
   load_configuration path w
   = (Raise (Exn FileNotFoundError
               ("Конфигурационный файл '" +:+ path +:+ "' не найден")), w))
  /\ (forall text e,
        path_exists (files w) path = true ->
        read_text (files w) path = Ok text ->
        JSON.loads text = Raise e ->
        exn_class_of e = JSONDecodeError ->
        load_configuration path w
        = (Raise (Exn ValueError
                    ("Ошибка парсинга JSON в файле '" +:+ path +:+ "': "
                     +:+ exn_str e)), w))
  /\ (forall e,
        path_exists (files w) path = true ->
        read_text (files w) path = Raise e ->
        issubclass (exn_class_of e) FileNotFoundError = false ->
        issubclass (exn_class_of e) JSONDecodeError = false ->
        load_configuration path w
        = (Raise (Exn RuntimeError
                    ("Неожиданная ошибка при загрузке конфигурации: "
                     +:+ exn_str e)), w))
  /\ (forall text v,
        path_exists (files w) path = true ->
        read_text (files w) path = Ok text ->
        JSON.loads text = Ok v ->
        exists r w',
          load_configuration path w = (Ok r, w')
          /\ heap w !! r = None
          /\ heap w' !! r = Some v
          /\ (forall l, l <> r -> heap w' !! l = heap w !! l)
          /\ files w' = files w /\ stdout w' = stdout w)
  /\ FileNotFoundError <> ValueError /\ ValueError <> RuntimeError
  /\ FileNotFoundError <> RuntimeError.
Proof.
  split; [apply load_missing|].
  split.
  { intros text e Hex Hread Hloads Hclass.
    rewrite (load_read _ _ Hex), Hread, Hloads, Hclass. reflexivity. }
  split.
  { intros e Hex Hread Hnf Hnj.
    rewrite (load_read _ _ Hex), Hread, Hnf, Hnj. reflexivity. }
  split; [|repeat split; discriminate].
  intros text v Hex Hread Hloads.
  exists (length (heap w)), (World (heap w ++ [v]) (files w) (stdout w)).
  split; [rewrite (load_read _ _ Hex), Hread, Hloads; reflexivity|].
  split; [apply lookup_ge_None_2; lia|].
  split; [apply merged_lookup|].
  split; [|split; reflexivity].
  intros l Hl. simpl.
  destruct (decide (l < length (heap w))%nat) as [Hin|Hout].
  - apply lookup_app_l. exact Hin.
  - rewrite !lookup_ge_None_2; [reflexivity | lia |].
    rewrite length_app. simpl. lia.
Qed.

(** C6: after [create_default_config] has written a path,
    [load_configuration] on that path returns a mapping equal to the
    default mapping (the seven entries, in their order), and
    [validate_configuration] accepts it, as it stands and after a merge
    with a command line that overrides nothing. *)
Theorem defaults_round_trip w w1 (path : string) :
  create_default_config path w = (Ok tt, w1) ->
  default_config
  = [ ("package_name", VStr "example-package");
      ("repository_url", VStr "https://github.com/example/repo");
      ("test_repository_mode", VBool false);
      ("test_repository_path", VStr "./test-repo");
      ("output_filename", VStr "dependency_graph.png");
      ("ascii_tree_output", VBool true);
      ("package_filter", VStr "") ]
  /\ exists r w2,
       load_configuration path w1 = (Ok r, w2)
       /\ heap w2 !! r = Some (VDict default_config)
       /\ validate_configuration r w2 = (Ok tt, w2)
       /\ forall cli, no_overrides cli ->
            exists r' w3,
              merge_configs r cli w2 = (Ok r', w3)
              /\ heap w3 !! r' = Some (VDict default_config)
              /\ validate_configuration r' w3 = (Ok tt, w3).
Proof.
  intros Hcreate. split; [reflexivity|].
  unfold create_default_config in Hcreate. rewrite run_bind in Hcreate.
  unfold write_file in Hcreate.
  destruct (write_text (files w) path (JSON.dumps 4 (VDict default_config)))
    as [fs'|e] eqn:Hwrite; [|discriminate].
  unfold print in Hcreate. simpl in Hcreate. injection Hcreate as <-.
  destruct (write_then_read _ _ _ _ default_config_text_no_cr Hwrite) as [Hex Hread].
  set (w1 := World (heap w) fs' _).
  assert (Hvalid : forall (w' : world FS) r,
             heap w' !! r = Some (VDict default_config) ->
             validate_configuration r w' = (Ok tt, w')).
  { intros w' r Hr.
    rewrite (validate_present w' r default_config
               (VStr "example-package") (VBool false)
               (VStr "https://github.com/example/repo") Hr);
      reflexivity. }
  eexists _, _. split.
  { rewrite (load_read w1 path Hex). simpl files. rewrite Hread.
    rewrite default_config_decodes. reflexivity. }
  split; [apply (merged_lookup w1)|].
  split; [apply Hvalid, (merged_lookup w1)|].
  intros cli Hcli.
  eexists _, _.
  split; [apply (merge_configs_run _ _ _ cli (merged_lookup w1 _))|].
  rewrite (overrides_none _ _ Hcli).
  split; [apply merged_lookup | apply Hvalid, merged_lookup].
Qed.

End LoadProperties.

(* ===================================================================== *)
(** * The properties at sample inputs *)
(* ===================================================================== *)

(** Every required parameter is in a dictionary that is written out. *)
Ltac all_required :=
  let q := fresh "q" in
  let Hq := fresh "Hq" in
  intros q Hq; unfold required_params in Hq;
  rewrite !elem_of_cons, elem_of_nil in Hq;
  destruct Hq as [->|[->|[->|[->|[->|[]]]]]]; reflexivity.

Section Witnesses.
Import Samples.
#[local] Existing Instance MemFS.no_floats.

Lemma merge_without_overrides_witness :
  exists r' w',
    merge_configs 0%nat no_flags (objects [VDict default_config]) = (Ok r', w')
    /\ heap w' !! r' = Some (VDict default_config).
Proof.
  apply (merge_without_overrides (objects [VDict default_config]) 0%nat
           default_config no_flags); [reflexivity | repeat split].
Defined.

Lemma validate_reports_first_missing_field_witness :
  validate_configuration 0%nat (objects [VDict incomplete])
  = (Raise (Exn ValueError "Отсутствует обязательный параметр: package_name"),
     objects [VDict incomplete]).
Proof.
  destruct (validate_reports_first_missing_field
              (objects [VDict incomplete]) 0%nat incomplete) as (_ & _ & Hname).
  - reflexivity.
  - exists "output_filename". split; [in_list | reflexivity].
  - apply Hname. reflexivity.
Defined.

(** C3, as the specification words it, fails: a repository_url made of one
    space is a non-empty string, and yet validation with
    test_repository_mode false raises the repository-URL error. *)
Lemma validate_rejects_blank_url :
  Dict.get "repository_url" (remote (VBool false) (VStr " ")) = Some (VStr " ")
  /\ " " <> ""
  /\ (validate_configuration 0%nat (objects [VDict (remote (VBool false) (VStr " "))])).1
     = Raise bad_repository_url
  /\ ~ ((validate_configuration 0%nat
           (objects [VDict (remote (VBool false) (VStr " "))])).1
        = Raise bad_repository_url
        <-> ~ exists s, Dict.get "repository_url" (remote (VBool false) (VStr " "))
                        = Some (VStr s) /\ s <> "").
Proof.
  split; [reflexivity|]. split; [discriminate|].
  assert (Hrun : (validate_configuration 0%nat
                    (objects [VDict (remote (VBool false) (VStr " "))])).1
                 = Raise bad_repository_url) by (vm_compute; reflexivity).
  split; [exact Hrun|].
  intros [Hfails _]. apply (Hfails Hrun).
  exists " ". split; [reflexivity | discriminate].
Qed.

Lemma validate_conditional_requirement_witness :
  validate_configuration 0%nat
    (objects [VDict (remote (VBool true) (VStr "https://example.org/repo"))])
  = (Raise missing_test_path,
     objects [VDict (remote (VBool true) (VStr "https://example.org/repo"))])
  /\ validate_configuration 0%nat
       (objects [VDict (remote (VBool false) (VStr "https://example.org/repo"))])
     = (Ok tt, objects [VDict (remote (VBool false) (VStr "https://example.org/repo"))]).
Proof.
  split.
  - destruct (validate_conditional_requirement
                (objects [VDict (remote (VBool true) (VStr "https://example.org/repo"))])
                0%nat (remote (VBool true) (VStr "https://example.org/repo"))
                (VStr "react")) as [Htest _].
    + reflexivity.
    + all_required.
    + reflexivity.
    + vm_compute. reflexivity.
    + apply Htest; reflexivity.
  - destruct (validate_conditional_requirement
                (objects [VDict (remote (VBool false) (VStr "https://example.org/repo"))])
                0%nat (remote (VBool false) (VStr "https://example.org/repo"))
                (VStr "react")) as [_ Hurl].
    + reflexivity.
    + all_required.
    + reflexivity.
    + vm_compute. reflexivity.
    + destruct (Hurl eq_refl (VStr "https://example.org/repo") eq_refl) as [_ Hpass].
      apply Hpass. exists "https://example.org/repo".
      split; [reflexivity | vm_compute; reflexivity].
Defined.

Lemma merge_string_overrides_witness :
  exists r' w' d',
    merge_configs 0%nat
      name_b
      (objects [VDict [("package_name", VStr "a"); ("repository_url", VStr "u")]])
    = (Ok r', w')
    /\ heap w' !! r' = Some (VDict d')
    /\ Dict.get "package_name" d' = Some (VStr "b")
    /\ Dict.get "repository_url" d' = Some (VStr "u").
Proof.
  destruct (merge_string_overrides
              (objects [VDict [("package_name", VStr "a"); ("repository_url", VStr "u")]])
              0%nat [("package_name", VStr "a"); ("repository_url", VStr "u")]
              name_b eq_refl)
    as (r' & w' & d' & Hrun & Hcell & _ & Hurl & _ & Hab).
  exists r', w', d'. split; [exact Hrun|]. split; [exact Hcell|].
  split; [apply Hab; reflexivity | exact Hurl].
Defined.

Lemma merge_package_filter_witness :
  exists r' w' d',
    merge_configs 0%nat
      empty_filter
      (objects [VDict [("package_filter", VStr "lib")]])
    = (Ok r', w')
    /\ heap w' !! r' = Some (VDict d')
    /\ Dict.get "package_filter" d' = Some (VStr "").
Proof.
  destruct (merge_package_filter
              (objects [VDict [("package_filter", VStr "lib")]])
              0%nat [("package_filter", VStr "lib")]
              empty_filter eq_refl)
    as (r' & w' & d' & Hrun & Hcell & _ & Hempty).
  exists r', w', d'. split; [exact Hrun|]. split; [exact Hcell|].
  apply Hempty. reflexivity.
Defined.

Lemma defaults_round_trip_witness :
  exists r w2,
    load_configuration "config.json"
      (create_default_config "config.json" (objects [])).2 = (Ok r, w2)
    /\ heap w2 !! r = Some (VDict default_config)
    /\ validate_configuration r w2 = (Ok tt, w2).
Proof.
  destruct (defaults_round_trip (objects [])
              (create_default_config "config.json" (objects [])).2 "config.json")
    as (_ & r & w2 & Hload & Hcell & Hvalid & _).
  - vm_compute. reflexivity.
  - exists r, w2. split; [exact Hload|]. split; [exact Hcell | exact Hvalid].
Defined.

Lemma load_configuration_outcomes_witness :
  load_configuration "absent.json" some_files
  = (Raise (Exn FileNotFoundError "Конфигурационный файл 'absent.json' не найден"),
     some_files)
  /\ load_configuration "broken.json" some_files
     = (Raise (Exn ValueError
                 ("Ошибка парсинга JSON в файле 'broken.json': "
                  +:+ "Expecting property name enclosed in double quotes: "
                  +:+ "line 1 column 2 (char 1)")), some_files)
  /\ load_configuration "data" some_files
     = (Raise (Exn RuntimeError
                 ("Неожиданная ошибка при загрузке конфигурации: "
                  +:+ "[Errno 21] Is a directory: 'data'")), some_files)
  /\ exists r w',
       load_configuration "list.json" some_files = (Ok r, w')
       /\ heap w' !! r = Some (VList [VInt 1; VInt 2]).
Proof.
  split; [|split; [|split]].
  - apply (load_configuration_outcomes some_files "absent.json"). reflexivity.
  - destruct (load_configuration_outcomes some_files "broken.json")
      as (_ & Hparse & _).
    apply (Hparse "{"
             (Exn JSONDecodeError
                "Expecting property name enclosed in double quotes: line 1 column 2 (char 1)"));
      reflexivity.
  - destruct (load_configuration_outcomes some_files "data") as (_ & _ & Hio & _).
    apply (Hio (Exn IsADirectoryError "[Errno 21] Is a directory: 'data'"));
      reflexivity.
  - destruct (load_configuration_outcomes some_files "list.json")
      as (_ & _ & _ & Hok & _).
    destruct (Hok "[1, 2]" (VList [VInt 1; VInt 2]))
      as (r & w' & Hload & _ & Hcell & _); [reflexivity..|].
    exists r, w'. split; [exact Hload | exact Hcell].
Defined.

Lemma merge_frame_witness :
  exists r' w' d',
    merge_configs 0%nat
      name_b_no_tree
      (objects [VDict with_color])
    = (Ok r', w')
    /\ r' <> 0%nat
    /\ heap w' !! 0%nat = Some (VDict with_color)
    /\ heap w' !! r' = Some (VDict d')
    /\ Dict.get "color" d' = Some (VStr "blue")
    /\ Dict.get "test_repository_path" d' = Some (VStr "./test-repo").
Proof.
  destruct (merge_frame
              (objects [VDict with_color])
              0%nat with_color
              name_b_no_tree eq_refl)
    as (r' & w' & d' & Hrun & _ & Hnew & Hold & _ & _ & _ & Hcell & Hkeep & _).
  exists r', w', d'. split; [exact Hrun|]. split; [exact Hnew|].
  split; [exact Hold|]. split; [exact Hcell|].
  split; (rewrite Hkeep; [reflexivity|]);
    unfold override_targets; rewrite !not_elem_of_cons;
    repeat split; try discriminate; apply not_elem_of_nil.
Defined.

Lemma validate_mode_truthiness_witness :
  validate_configuration 0%nat
    (objects [VDict (remote (VStr "no") (VStr "https://example.org/repo"))])
  = (Raise missing_test_path,
     objects [VDict (remote (VStr "no") (VStr "https://example.org/repo"))])
  /\ validate_configuration 0%nat
       (objects [VDict (remote (VInt 0) (VStr "https://example.org/repo"))])
     = (Ok tt, objects [VDict (remote (VInt 0) (VStr "https://example.org/repo"))]).
Proof.
  split.
  - destruct (validate_mode_truthiness
                (objects [VDict (remote (VStr "no") (VStr "https://example.org/repo"))])
                0%nat (remote (VStr "no") (VStr "https://example.org/repo"))
                (VStr "react") (VStr "no")) as [Htest _].
    + reflexivity.
    + all_required.
    + reflexivity.
    + vm_compute. reflexivity.
    + reflexivity.
    + apply Htest. reflexivity.
  - destruct (validate_mode_truthiness
                (objects [VDict (remote (VInt 0) (VStr "https://example.org/repo"))])
                0%nat (remote (VInt 0) (VStr "https://example.org/repo"))
                (VStr "react") (VInt 0)) as (_ & Hurl & _).
    + reflexivity.
    + all_required.
    + reflexivity.
    + vm_compute. reflexivity.
    + reflexivity.
    + destruct (Hurl eq_refl (VStr "https://example.org/repo") eq_refl) as [Hrun _].
      exact Hrun.
Defined.

End Witnesses.

(* ===================================================================== *)
(** * More on running computations *)
(* ===================================================================== *)

Section MoreRunning.
Context {FS : Type}.
Implicit Types (w : world FS) (r : loc) (d : dict).

Lemma for_each_print {A} (f : A -> string) (l : list A) w :
  for_each l (fun x => print (f x)) w
  = (Ok tt, World (heap w) (files w) (stdout w ++ List.map f l)).
Proof.
  revert w. induction l as [|x l IH]; intros w; simpl.
  - rewrite app_nil_r. destruct w; reflexivity.
  - rewrite run_bind. unfold print at 1. rewrite IH. simpl.
    rewrite <- app_assoc. reflexivity.
Qed.

Lemma loop_leaves_world {A} (l : list A) (body : A -> M FS unit) w :
  (forall x, read_only (body x)) ->
  exists o, for_each l body w = (o, w).
Proof.
  intros Hbody. pose proof (read_only_for_each l body Hbody w) as Hw.
  destruct (for_each l body w) as [o w']. simpl in Hw. subst w'. eauto.
Qed.

Lemma presence_body_read_only r (param : string) :
  read_only (present ← py_in (FS:=FS) param r;
             if negb present
             then raise (Exn ValueError ("Отсутствует обязательный параметр: " +:+ param))
             else mret tt).
Proof.
  apply read_only_bind; [auto with read_only|].
  intros present. apply read_only_if; auto with read_only.
Qed.

(** [validate_configuration] accepts nothing but a dictionary. *)
Lemma validate_ok_is_dict w w' r :
  validate_configuration r w = (Ok tt, w') ->
  exists d, heap w !! r = Some (VDict d).
Proof.
  intros Hrun. destruct (heap w !! r) as [v|] eqn:Hcell.
  - destruct v as [| b | n | f | s | l | d]; [| | | | | |eauto]; exfalso;
      unfold validate_configuration in Hrun; rewrite run_bind in Hrun.
    1-4: simpl for_each in Hrun; rewrite !run_bind in Hrun;
         unfold py_in in Hrun; rewrite run_bind in Hrun;
         unfold deref in Hrun; rewrite Hcell in Hrun; discriminate.
    all: destruct (loop_leaves_world required_params
                     (fun param =>
                        present ← py_in param r;
                        if negb present
                        then raise (Exn ValueError
                                      ("Отсутствует обязательный параметр: " +:+ param))
                        else mret tt) w (presence_body_read_only r))
           as [o Ho];
         rewrite Ho in Hrun; destruct o as [[]|e]; [|discriminate];
         rewrite run_bind in Hrun; unfold getitem in Hrun;
         rewrite run_bind in Hrun; unfold deref in Hrun;
         rewrite Hcell in Hrun; discriminate.
  - exfalso. unfold validate_configuration in Hrun. rewrite run_bind in Hrun.
    simpl for_each in Hrun. rewrite !run_bind in Hrun.
    unfold py_in in Hrun. rewrite run_bind in Hrun.
    unfold deref in Hrun. rewrite Hcell in Hrun. discriminate.
Qed.

End MoreRunning.

(* ===================================================================== *)
(** * Further properties of validate_configuration *)
(* ===================================================================== *)

Section MoreValidation.
Context {FS : Type}.
Implicit Types (w : world FS) (r : loc) (d : dict).

(** What a dictionary must hold to be accepted. *)
Lemma accepted_iff w r d :
  heap w !! r = Some (VDict d) ->
  validate_configuration r w = (Ok tt, w) <-> acceptable d.
Proof.
  intros H. unfold acceptable.
  destruct (List.find (fun q => negb (Dict.mem q d)) required_params) as [p|] eqn:Hfind.
  - rewrite (validate_absent _ _ _ _ H Hfind). split; [discriminate|].
    intros (Hall & _). rewrite (all_present_find d Hall) in Hfind. discriminate.
  - assert (Hall : forall q, q ∈ required_params -> Dict.mem q d = true).
    { intros q Hq. apply negb_false_iff.
      exact (proj1 (find_none_all _ _) Hfind q Hq). }
    destruct (present_get "package_name" d) as [name Hname]; [apply Hall; in_list|].
    destruct (present_get "test_repository_mode" d) as [mode Hmode]; [apply Hall; in_list|].
    destruct (present_get "repository_url" d) as [url Hurl]; [apply Hall; in_list|].
    rewrite (validate_present _ _ _ _ _ _ H Hfind Hname Hmode Hurl).
    split.
    + intros Hok. split; [exact Hall|].
      destruct name as [| | | |s| |]; try discriminate.
      rewrite not_str_or_blank_str in Hok.
      destruct (Text.blank s) eqn:Hs; [discriminate|].
      split; [exists s; split; [exact Hname | exact Hs]|].
      exists mode. split; [exact Hmode|].
      destruct (truthy mode).
      * destruct (Dict.mem "test_repository_path" d); [reflexivity | discriminate].
      * destruct url as [| | | |u| |]; try discriminate.
        rewrite not_str_or_blank_str in Hok.
        destruct (Text.blank u) eqn:Hu; [discriminate|].
        exists u. split; [exact Hurl | exact Hu].
    + intros (_ & (s & Hs & Hblank) & (mode' & Hmode' & Hbranch)).
      rewrite Hname in Hs. injection Hs as ->.
      rewrite Hmode in Hmode'. injection Hmode' as <-.
      rewrite not_str_or_blank_str, Hblank.
      destruct (truthy mode).
      * rewrite Hbranch. reflexivity.
      * destruct Hbranch as (u & Hu & Hublank).
        rewrite Hurl in Hu. injection Hu as ->.
        rewrite not_str_or_blank_str, Hublank. reflexivity.
Qed.

(** X1: [validate_configuration] accepts a configuration exactly when it has
    the five required parameters, its package_name is a string with a
    character that is not white space, and either test_repository_mode
    counts as true and test_repository_path is there, or it counts as false
    and repository_url is a string with a character that is not white
    space.  Nothing else is looked at: output_filename and
    ascii_tree_output need only be there, with any value. *)
Theorem validate_accepts_exactly w r d :
  heap w !! r = Some (VDict d) ->
  validate_configuration r w = (Ok tt, w)
  <-> (forall q, q ∈ required_params -> Dict.mem q d = true)
      /\ (exists s, Dict.get "package_name" d = Some (VStr s) /\ Text.blank s = false)
      /\ (exists mode,
            Dict.get "test_repository_mode" d = Some mode
            /\ if truthy mode
               then Dict.mem "test_repository_path" d = true
               else exists u, Dict.get "repository_url" d = Some (VStr u)
                              /\ Text.blank u = false).
Proof. intros H. apply (accepted_iff _ _ _ H). Qed.

(** The errors [validate_configuration] can raise on a dictionary. *)
Lemma rejected_how w r d (e : exn) (w' : world FS) :
  heap w !! r = Some (VDict d) ->
  validate_configuration r w = (Raise e, w') ->
  (exists p, p ∈ required_params /\ Dict.mem p d = false /\ e = missing p)
  \/ e = bad_package_name \/ e = missing_test_path \/ e = bad_repository_url.
Proof.
  intros H Hrun.
  destruct (List.find (fun q => negb (Dict.mem q d)) required_params) as [p|] eqn:Hfind.
  - rewrite (validate_absent _ _ _ _ H Hfind) in Hrun. injection Hrun as <- _.
    left. exists p.
    destruct (proj1 (find_first_split _ _ _) Hfind) as (before & after & Hl & _ & Hp).
    split; [rewrite Hl; apply elem_of_app; right; apply list_elem_of_here|].
    split; [apply negb_true_iff, Hp | reflexivity].
  - assert (Hall : forall q, q ∈ required_params -> Dict.mem q d = true).
    { intros q Hq. apply negb_false_iff.
      exact (proj1 (find_none_all _ _) Hfind q Hq). }
    destruct (present_get "package_name" d) as [name Hname]; [apply Hall; in_list|].
    destruct (present_get "test_repository_mode" d) as [mode Hmode]; [apply Hall; in_list|].
    destruct (present_get "repository_url" d) as [url Hurl]; [apply Hall; in_list|].
    rewrite (validate_present _ _ _ _ _ _ H Hfind Hname Hmode Hurl) in Hrun.
    right.
    destruct (not_str_or_blank name); [injection Hrun as <- _; tauto|].
    destruct (truthy mode).
    + destruct (Dict.mem "test_repository_path" d); [discriminate|].
      injection Hrun as <- _. tauto.
    + destruct (not_str_or_blank url); [|discriminate].
      injection Hrun as <- _. tauto.
Qed.

(** X2: on a dictionary [validate_configuration] raises nothing but a
    ValueError, and only one of four: a required parameter is absent (the
    error names it), the package name is bad, the test path is absent, the
    repository URL is bad.  In particular no lookup of a key ever fails
    with a KeyError. *)
Theorem validate_raises_only_value_errors w r d (e : exn) (w' : world FS) :
  heap w !! r = Some (VDict d) ->
  validate_configuration r w = (Raise e, w') ->
  exn_class_of e = ValueError
  /\ ((exists p, p ∈ required_params /\ Dict.mem p d = false
                 /\ exn_str e = "Отсутствует обязательный параметр: " +:+ p)
      \/ exn_str e = "Имя пакета должно быть непустой строкой"
      \/ exn_str e
         = "В режиме тестового репозитория должен быть указан test_repository_path"
      \/ exn_str e = "URL репозитория должен быть непустой строкой").
Proof.
  intros H Hrun.
  destruct (rejected_how _ _ _ _ _ H Hrun) as [(p & Hp & Hmem & ->) | [-> | [-> | ->]]].
  - split; [reflexivity|]. left. exists p. repeat split; assumption.
  - split; [reflexivity|]. right. left. reflexivity.
  - split; [reflexivity|]. right. right. left. reflexivity.
  - split; [reflexivity|]. right. right. right. reflexivity.
Qed.

(** X3: the package name is checked before the mode branch: with the five
    required parameters there and a package_name that is not a string, or is
    empty or white space only, the package-name error is raised whatever
    test_repository_mode, test_repository_path and repository_url hold. *)
Theorem validate_package_name_first w r d (name : value) :
  heap w !! r = Some (VDict d) ->
  (forall q, q ∈ required_params -> Dict.mem q d = true) ->
  Dict.get "package_name" d = Some name ->
  match name with VStr s => Text.blank s = true | _ => True end ->
  validate_configuration r w
  = (Raise (Exn ValueError "Имя пакета должно быть непустой строкой"), w).
Proof.
  intros H Hall Hname Hbad.
  pose proof (all_present_find d Hall) as Hfind.
  destruct (present_get "test_repository_mode" d) as [mode Hmode]; [apply Hall; in_list|].
  destruct (present_get "repository_url" d) as [url Hurl]; [apply Hall; in_list|].
  rewrite (validate_present _ _ _ _ _ _ H Hfind Hname Hmode Hurl).
  assert (Hnot : not_str_or_blank name = true).
  { destruct name; try reflexivity. rewrite not_str_or_blank_str. exact Hbad. }
  rewrite Hnot. reflexivity.
Qed.

End MoreValidation.

(* ===================================================================== *)
(** * Further properties of merge_configs *)
(* ===================================================================== *)

Lemma dict_mem_keys (k : string) (d : dict) :
  Dict.mem k d = true <-> k ∈ Dict.keys d.
Proof.
  induction d as [|[k' v] d IH]; simpl.
  - split; [discriminate | intros H; inversion H].
  - rewrite elem_of_cons, orb_true_iff, IH, String.eqb_eq. reflexivity.
Qed.

Lemma dict_set_same (k : string) (x : value) (d : dict) :
  Dict.get k d = Some x -> Dict.set k x d = d.
Proof.
  induction d as [|[k' v] d IH]; simpl; [discriminate|].
  destruct (String.eqb k k'); [intros [= ->]; reflexivity|].
  intros H. rewrite (IH H). reflexivity.
Qed.

Lemma dict_set_set (k : string) (x y : value) (d : dict) :
  Dict.set k y (Dict.set k x d) = Dict.set k y d.
Proof.
  induction d as [|[k' v] d IH]; simpl.
  - rewrite String.eqb_refl. reflexivity.
  - destruct (String.eqb k k') eqn:Hk; simpl; rewrite Hk; [reflexivity|].
    rewrite IH. reflexivity.
Qed.

Lemma dict_keys_set (k : string) (x : value) (d : dict) :
  Dict.keys (Dict.set k x d)
  = if Dict.mem k d then Dict.keys d else (Dict.keys d ++ [k])%list.
Proof.
  unfold Dict.keys. induction d as [|[k' v] d IH]; simpl; [reflexivity|].
  destruct (String.eqb k k'); simpl; [reflexivity|].
  rewrite IH. destruct (Dict.mem k d); reflexivity.
Qed.

Lemma keys_extended_refl (d : dict) : keys_extended d d.
Proof. split; [reflexivity|]. split; [intros k Hk; left; exact Hk | tauto]. Qed.

Lemma keys_extended_set_when (d d1 : dict) (c : bool) (k : string) (x : value) :
  k ∈ override_targets ->
  keys_extended d d1 -> keys_extended d (set_when c k x d1).
Proof.
  intros Hk (Hpre & Hin & Hnodup). unfold keys_extended, set_when.
  destruct c; [|split; [exact Hpre | split; assumption]].
  rewrite dict_keys_set. destruct (Dict.mem k d1) eqn:Hmem;
    [split; [exact Hpre | split; assumption]|].
  split; [|split].
  - etransitivity; [exact Hpre|]. apply prefix_app_r. reflexivity.
  - intros k' Hk'. apply elem_of_app in Hk' as [Hk'|Hk'].
    + apply Hin, Hk'.
    + apply list_elem_of_singleton in Hk' as ->. right. exact Hk.
  - intros Hd. apply NoDup_app. split; [apply Hnodup, Hd|]. split.
    + intros k' Hk' Hk''. apply list_elem_of_singleton in Hk'' as ->.
      apply dict_mem_keys in Hk'. congruence.
    + apply NoDup_singleton.
Qed.

Lemma blank_nonempty (s : string) : Text.blank s = false -> String.eqb s "" = false.
Proof. destruct s; [vm_compute; discriminate | reflexivity]. Qed.

Section MoreMerging.
Context {FS : Type}.
Implicit Types (w : world FS) (r : loc) (d : dict).

(** X4: in the merged configuration ascii_tree_output is False when
    --no-ascii-tree is given (also when --ascii-tree is given as well: the
    later assignment wins), True when only --ascii-tree is given, and the
    file's entry when neither is; test_repository_mode follows
    --no-test-mode and --test-mode in the same way. *)
Theorem merge_toggles w r d (cli : Namespace) :
  heap w !! r = Some (VDict d) ->
  exists r' w' d',
    merge_configs r cli w = (Ok r', w')
    /\ heap w' !! r' = Some (VDict d')
    /\ Dict.get "ascii_tree_output" d'
       = (if no_ascii_tree cli then Some (VBool false)
          else if ascii_tree cli then Some (VBool true)
          else Dict.get "ascii_tree_output" d)
    /\ Dict.get "test_repository_mode" d'
       = (if no_test_mode cli then Some (VBool false)
          else if test_mode cli then Some (VBool true)
          else Dict.get "test_repository_mode" d).
Proof.
  intros H. eexists _, _, _.
  split; [apply (merge_configs_run _ _ _ _ H)|].
  split; [apply merged_lookup|].
  unfold overrides. rewrite !get_set_when. simpl String.eqb.
  rewrite !andb_false_r, !andb_true_r.
  split; reflexivity.
Qed.

Lemma set_when_same (c : bool) (k : string) (x : value) d :
  (c = true -> Dict.get k d = Some x) -> set_when c k x d = d.
Proof.
  unfold set_when. destruct c; [|reflexivity].
  intros Hget. apply dict_set_same, Hget. reflexivity.
Qed.

Lemma toggle_pair_same (c1 c2 : bool) (k : string) d :
  Dict.get k d = (if c2 then Some (VBool false)
                  else if c1 then Some (VBool true) else Dict.get k d) ->
  set_when c2 k (VBool false) (set_when c1 k (VBool true) d) = d.
Proof.
  unfold set_when. destruct c2, c1; intros Hget.
  - rewrite dict_set_set. apply dict_set_same, Hget.
  - apply dict_set_same, Hget.
  - apply dict_set_same, Hget.
  - reflexivity.
Qed.

Lemma overrides_idempotent (cli : Namespace) d :
  overrides cli (overrides cli d) = overrides cli d.
Proof.
  assert (Hget : forall k, Dict.get k (overrides cli d)
                           = Dict.get k (overrides cli d)) by reflexivity.
  assert (Hn : truthy (arg (package_name cli)) = true ->
               Dict.get "package_name" (overrides cli d) = Some (arg (package_name cli))).
  { intros Hc. unfold overrides. rewrite !get_set_when. simpl String.eqb.
    rewrite !andb_false_r, !andb_true_r, Hc. reflexivity. }
  assert (Hu : truthy (arg (repository_url cli)) = true ->
               Dict.get "repository_url" (overrides cli d) = Some (arg (repository_url cli))).
  { intros Hc. unfold overrides. rewrite !get_set_when. simpl String.eqb.
    rewrite !andb_false_r, !andb_true_r, Hc. reflexivity. }
  assert (Ho : truthy (arg (output_filename cli)) = true ->
               Dict.get "output_filename" (overrides cli d) = Some (arg (output_filename cli))).
  { intros Hc. unfold overrides. rewrite !get_set_when. simpl String.eqb.
    rewrite !andb_false_r, !andb_true_r, Hc. reflexivity. }
  assert (Hf : negb (is_none (arg (package_filter cli))) = true ->
               Dict.get "package_filter" (overrides cli d) = Some (arg (package_filter cli))).
  { intros Hc. unfold overrides. rewrite !get_set_when. simpl String.eqb.
    rewrite !andb_false_r, !andb_true_r, Hc. reflexivity. }
  assert (Ha : Dict.get "ascii_tree_output" (overrides cli d)
               = (if no_ascii_tree cli then Some (VBool false)
                  else if ascii_tree cli then Some (VBool true)
                  else Dict.get "ascii_tree_output" (overrides cli d))).
  { unfold overrides. rewrite !get_set_when. simpl String.eqb.
    rewrite !andb_false_r, !andb_true_r.
    destruct (no_ascii_tree cli), (ascii_tree cli); reflexivity. }
  assert (Ht : Dict.get "test_repository_mode" (overrides cli d)
               = (if no_test_mode cli then Some (VBool false)
                  else if test_mode cli then Some (VBool true)
                  else Dict.get "test_repository_mode" (overrides cli d))).
  { unfold overrides. rewrite !get_set_when. simpl String.eqb.
    rewrite !andb_false_r, !andb_true_r.
    destruct (no_test_mode cli), (test_mode cli); reflexivity. }
  clear Hget. unfold overrides at 1. set (D := overrides cli d) in *.
  rewrite (set_when_same _ _ _ D Hn), (set_when_same _ _ _ D Hu),
    (set_when_same _ _ _ D Ho), (set_when_same _ _ _ D Hf).
  rewrite (toggle_pair_same _ _ _ D Ha), (toggle_pair_same _ _ _ D Ht).
  reflexivity.
Qed.

(** X5: merging is idempotent: merging the merged configuration with the
    same command line once more gives a configuration equal to it. *)
Theorem merge_twice_same w r d (cli : Namespace) :
  heap w !! r = Some (VDict d) ->
  exists r1 w1 r2 w2 d',
    merge_configs r cli w = (Ok r1, w1)
    /\ heap w1 !! r1 = Some (VDict d')
    /\ merge_configs r1 cli w1 = (Ok r2, w2)
    /\ heap w2 !! r2 = Some (VDict d').
Proof.
  intros H.
  set (w1 := World (heap w ++ [VDict (overrides cli d)]) (files w) (stdout w)).
  assert (H1 : heap w1 !! length (heap w) = Some (VDict (overrides cli d)))
    by apply merged_lookup.
  eexists _, w1, _, _, (overrides cli d).
  split; [apply (merge_configs_run _ _ _ _ H)|].
  split; [exact H1|].
  split; [apply (merge_configs_run _ _ _ _ H1)|].
  rewrite merged_lookup, overrides_idempotent. reflexivity.
Qed.

Lemma overrides_keys_extended (cli : Namespace) d : keys_extended d (overrides cli d).
Proof.
  unfold overrides.
  repeat (apply keys_extended_set_when; [in_list|]).
  apply keys_extended_refl.
Qed.

(** X6: merging loses no key and keeps the order of the file: the keys of
    the file mapping, in their order, open the merged mapping; any key
    after them is one an override had to add; and a mapping without
    repeated keys stays without. *)
Theorem merge_keeps_key_order w r d (cli : Namespace) :
  heap w !! r = Some (VDict d) ->
  exists r' w' d',
    merge_configs r cli w = (Ok r', w')
    /\ heap w' !! r' = Some (VDict d')
    /\ Dict.keys d `prefix_of` Dict.keys d'
    /\ (forall k, k ∈ Dict.keys d' -> k ∈ Dict.keys d \/ k ∈ override_targets)
    /\ (NoDup (Dict.keys d) -> NoDup (Dict.keys d')).
Proof.
  intros H. eexists _, _, _.
  split; [apply (merge_configs_run _ _ _ _ H)|].
  split; [apply merged_lookup|].
  apply overrides_keys_extended.
Qed.

(** X7: the command line can supply every required parameter: whatever the
    file mapping holds (nothing at all, say), the merged configuration is
    accepted when --package-name and --repository-url are given with a
    character that is not white space, --output-filename is given and not
    empty, one of --ascii-tree and --no-ascii-tree is given, and
    --no-test-mode is given. *)
Theorem command_line_supplies_required w r d (cli : Namespace) (n u o : string) :
  heap w !! r = Some (VDict d) ->
  package_name cli = Some n -> Text.blank n = false ->
  repository_url cli = Some u -> Text.blank u = false ->
  output_filename cli = Some o -> o <> "" ->
  ascii_tree cli = true \/ no_ascii_tree cli = true ->
  no_test_mode cli = true ->
  exists r' w',
    merge_configs r cli w = (Ok r', w')
    /\ validate_configuration r' w' = (Ok tt, w').
Proof.
  intros H Hn Hnb Hu Hub Ho Hob Htree Hmode.
  eexists _, _. split; [apply (merge_configs_run _ _ _ _ H)|].
  apply (accepted_iff _ _ _ (merged_lookup w _)).
  apply String.eqb_neq in Hob.
  pose proof (blank_nonempty _ Hnb) as Hne. pose proof (blank_nonempty _ Hub) as Hue.
  assert (Hget : forall k,
             Dict.get k (overrides cli d)
             = if String.eqb k "test_repository_mode" then Some (VBool false)
               else if no_ascii_tree cli && String.eqb k "ascii_tree_output"
                    then Some (VBool false)
               else if ascii_tree cli && String.eqb k "ascii_tree_output"
                    then Some (VBool true)
               else if negb (is_none (arg (package_filter cli)))
                       && String.eqb k "package_filter"
                    then Some (arg (package_filter cli))
               else if String.eqb k "output_filename" then Some (VStr o)
               else if String.eqb k "repository_url" then Some (VStr u)
               else if String.eqb k "package_name" then Some (VStr n)
               else Dict.get k d).
  { intros k. unfold overrides. rewrite !get_set_when, Hn, Hu, Ho, Hmode.
    simpl arg. simpl truthy. rewrite Hne, Hue, Hob. simpl negb.
    rewrite !andb_true_l.
    destruct (String.eqb k "test_repository_mode"); [reflexivity|].
    rewrite andb_false_r. reflexivity. }
  split; [|split].
  - intros q Hq. rewrite dict_mem_get, Hget.
    unfold required_params in Hq. rewrite !elem_of_cons, elem_of_nil in Hq.
    destruct Hq as [->|[->|[->|[->|[->|[]]]]]]; simpl; rewrite ?andb_false_r, ?andb_true_r;
      try reflexivity.
    destruct Htree as [Htree|Htree]; rewrite Htree;
      [destruct (no_ascii_tree cli)|]; reflexivity.
  - exists n. rewrite Hget. simpl. rewrite !andb_false_r. split; [reflexivity | exact Hnb].
  - exists (VBool false). rewrite Hget. split; [reflexivity|]. simpl.
    exists u. rewrite Hget. simpl. rewrite !andb_false_r. split; [reflexivity | exact Hub].
Qed.

(** X8: the test-repository path cannot come from the command line: with
    --test-mode (and no --no-test-mode) a file mapping without
    test_repository_path is rejected whatever else is given; when nothing
    else is wrong the error is the one that names test_repository_path. *)
Theorem test_mode_needs_path_in_file w r d (cli : Namespace) :
  heap w !! r = Some (VDict d) ->
  test_mode cli = true -> no_test_mode cli = false ->
  Dict.mem "test_repository_path" d = false ->
  exists r' w' d' e,
    merge_configs r cli w = (Ok r', w')
    /\ heap w' !! r' = Some (VDict d')
    /\ validate_configuration r' w' = (Raise e, w')
    /\ ((forall q, q ∈ required_params -> Dict.mem q d' = true) ->
        (exists s, Dict.get "package_name" d' = Some (VStr s) /\ Text.blank s = false) ->
        e = missing_test_path).
Proof.
  intros H Ht Hnt Hpath.
  set (w' := World (heap w ++ [VDict (overrides cli d)]) (files w) (stdout w)).
  assert (Hcell : heap w' !! length (heap w) = Some (VDict (overrides cli d)))
    by apply merged_lookup.
  assert (Hmode : Dict.get "test_repository_mode" (overrides cli d) = Some (VBool true)).
  { unfold overrides. rewrite !get_set_when, Ht, Hnt. reflexivity. }
  assert (Hpath' : Dict.mem "test_repository_path" (overrides cli d) = false).
  { rewrite dict_mem_get, overrides_other, <- dict_mem_get; [exact Hpath|].
    unfold override_targets. rewrite !not_elem_of_cons.
    repeat split; try discriminate. apply not_elem_of_nil. }
  pose proof (read_only_validate (length (heap w)) w') as Hsame.
  destruct (validate_configuration (length (heap w)) w') as [[[]|e] w''] eqn:Hrun;
    simpl in Hsame; subst w''.
  - exfalso. apply (accepted_iff _ _ _ Hcell) in Hrun.
    destruct Hrun as (_ & _ & mode & Hm & Hbranch).
    rewrite Hmode in Hm. injection Hm as <-. simpl in Hbranch. congruence.
  - exists (length (heap w)), w', (overrides cli d), e.
    split; [apply (merge_configs_run _ _ _ _ H)|].
    split; [exact Hcell|]. split; [exact Hrun|].
    intros Hall (s & Hs & Hblank).
    pose proof (all_present_find _ Hall) as Hfind.
    destruct (present_get "repository_url" (overrides cli d)) as [url Hurl];
      [apply Hall; in_list|].
    rewrite (validate_present _ _ _ _ _ _ Hcell Hfind Hs Hmode Hurl) in Hrun.
    rewrite not_str_or_blank_str, Hblank in Hrun. simpl in Hrun.
    rewrite Hpath' in Hrun. injection Hrun as <-. reflexivity.
Qed.

End MoreMerging.

(* ===================================================================== *)
(** * Further properties of load_configuration *)
(* ===================================================================== *)

Lemma subclass_of_FileNotFoundError (c : exn_class) :
  issubclass c FileNotFoundError = true -> c = FileNotFoundError.
Proof. destruct c; simpl; intros H; solve [reflexivity | discriminate]. Qed.

Section MoreLoading.
Context {FS : Type} `{!FileSystem FS} `{!FloatCodec}.
Implicit Types (w : world FS) (r : loc) (d : dict).

Lemma load_effects w (path : string) :
  match load_configuration path w with
  | (Ok r, w') =>
      r = length (heap w)
      /\ exists v, w' = World (heap w ++ [v]) (files w) (stdout w)
  | (Raise e, w') =>
      w' = w
      /\ (exn_class_of e = FileNotFoundError \/ exn_class_of e = ValueError
          \/ exn_class_of e = RuntimeError)
  end.
Proof.
  destruct (path_exists (files w) path) eqn:Hex.
  - rewrite (load_read _ _ Hex).
    assert (Hraise : forall e,
               match
                 (if issubclass (exn_class_of e) FileNotFoundError then (Raise e, w)
                  else if issubclass (exn_class_of e) JSONDecodeError then
                    (Raise (Exn ValueError
                              ("Ошибка парсинга JSON в файле '" +:+ path +:+ "': "
                               +:+ exn_str e)), w)
                  else
                    (Raise (Exn RuntimeError
                              ("Неожиданная ошибка при загрузке конфигурации: "
                               +:+ exn_str e)), w)) : outcome loc * world FS
               with
               | (Ok r, w') =>
                   r = length (heap w)
                   /\ exists v, w' = World (heap w ++ [v]) (files w) (stdout w)
               | (Raise e', w') =>
                   w' = w
                   /\ (exn_class_of e' = FileNotFoundError \/ exn_class_of e' = ValueError
                       \/ exn_class_of e' = RuntimeError)
               end).
    { intros e.
      destruct (issubclass (exn_class_of e) FileNotFoundError) eqn:Hnf.
      - split; [reflexivity|]. left. apply subclass_of_FileNotFoundError, Hnf.
      - destruct (issubclass (exn_class_of e) JSONDecodeError);
          (split; [reflexivity|]); simpl; tauto. }
    destruct (read_text (files w) path) as [text|e]; [|apply Hraise].
    destruct (JSON.loads text) as [v|e]; [|apply Hraise].
    split; [reflexivity | eauto].
  - rewrite (load_missing _ _ Hex). split; [reflexivity|]. left. reflexivity.
Qed.

(** X9: [load_configuration] raises nothing but FileNotFoundError,
    ValueError and RuntimeError, and when it raises it has changed nothing;
    when it returns, what it returns is one new object, and the objects
    there were, the files and the output are as before. *)
Theorem load_configuration_effects w (path : string) :
  match load_configuration path w with
  | (Ok r, w') =>
      r = length (heap w)
      /\ exists v, w' = World (heap w ++ [v]) (files w) (stdout w)
  | (Raise e, w') =>
      w' = w
      /\ (exn_class_of e = FileNotFoundError \/ exn_class_of e = ValueError
          \/ exn_class_of e = RuntimeError)
  end.
Proof. apply load_effects. Qed.

End MoreLoading.

(* ===================================================================== *)
(** * merge_configs on an object that is not a dictionary *)
(* ===================================================================== *)

Section MergingOthers.
Context {FS : Type}.
Implicit Types (w : world FS) (r : loc) (d : dict).

Lemma set_if_list (h : list value) (f : FS) (o : list string) (l : list value)
    (c : bool) (k : string) (x : value) :
  set_if c (length h) k x (World (h ++ [VList l]) f o)
  = (if c then Raise (Exn TypeError "list indices must be integers or slices, not str")
     else Ok tt, World (h ++ [VList l]) f o).
Proof.
  destruct c; [|reflexivity].
  unfold set_if, setitem. rewrite run_bind. unfold deref. simpl heap.
  rewrite list_lookup_middle by reflexivity. reflexivity.
Qed.

(** A list is copied, and then the first assignment fails. *)
Lemma merge_configs_list w r (l : list value) (cli : Namespace) :
  heap w !! r = Some (VList l) ->
  merge_configs r cli w
  = (if any_override cli
     then Raise (Exn TypeError "list indices must be integers or slices, not str")
     else Ok (length (heap w)),
     World (heap w ++ [VList l]) (files w) (stdout w)).
Proof.
  intros H. unfold merge_configs, any_override.
  rewrite run_bind. unfold py_copy. rewrite run_bind. unfold deref. rewrite H.
  unfold alloc. cbv beta iota.
  repeat (rewrite run_bind, set_if_list;
          match goal with
          | |- context [if ?c then Raise _ else Ok tt] =>
              destruct c; [rewrite ?orb_true_r; reflexivity|]
          end; cbv beta iota).
  reflexivity.
Qed.

(** Anything else has no [copy]. *)
Lemma merge_configs_scalar w r (v : value) (cli : Namespace) :
  heap w !! r = Some v ->
  match v with VDict _ | VList _ => False | _ => True end ->
  merge_configs r cli w
  = (Raise (Exn AttributeError
              ("'" +:+ type_name v +:+ "' object has no attribute 'copy'")), w).
Proof.
  intros H Hv. unfold merge_configs.
  rewrite run_bind. unfold py_copy. rewrite run_bind. unfold deref. rewrite H.
  destruct v; try contradiction; reflexivity.
Qed.

(** Whatever it is given, [merge_configs] leaves the files, the output and
    the objects there are as they were; it adds at most one object. *)
Lemma merge_configs_effects w r (cli : Namespace) :
  exists o w',
    merge_configs r cli w = (o, w')
    /\ files w' = files w /\ stdout w' = stdout w
    /\ heap w `prefix_of` heap w'.
Proof.
  destruct (heap w !! r) as [v|] eqn:H.
  - destruct v as [| b | n | f | s | l | d].
    6: { eexists _, _. split; [apply (merge_configs_list _ _ _ _ H)|].
         split; [reflexivity|]. split; [reflexivity|]. apply prefix_app_r. reflexivity. }
    6: { eexists _, _. split; [apply (merge_configs_run _ _ _ _ H)|].
         split; [reflexivity|]. split; [reflexivity|]. apply prefix_app_r. reflexivity. }
    all: eexists _, _; (split; [apply (merge_configs_scalar _ _ _ _ H); exact I|]);
      split; [reflexivity|]; split; reflexivity.
  - eexists _, _. split.
    + unfold merge_configs. rewrite run_bind. unfold py_copy. rewrite run_bind.
      unfold deref. rewrite H. reflexivity.
    + split; [reflexivity|]. split; reflexivity.
Qed.

(** What [merge_configs] returns is a dictionary only if it was given one. *)
Lemma merge_configs_dict_from_dict w r (cli : Namespace) (r' : loc) (w' : world FS)
    (d' : dict) :
  merge_configs r cli w = (Ok r', w') ->
  heap w' !! r' = Some (VDict d') ->
  exists d, heap w !! r = Some (VDict d).
Proof.
  intros Hrun Hcell. destruct (heap w !! r) as [v|] eqn:H.
  - destruct v as [| b | n | f | s | l | d]; [| | | | | |eauto]; exfalso.
    6: { rewrite (merge_configs_list _ _ _ _ H) in Hrun.
         destruct (any_override cli); [discriminate|].
         injection Hrun as <- <-. rewrite merged_lookup in Hcell. discriminate. }
    all: rewrite (merge_configs_scalar _ _ _ _ H) in Hrun by exact I; discriminate.
  - exfalso. unfold merge_configs in Hrun. rewrite run_bind in Hrun.
    unfold py_copy in Hrun. rewrite run_bind in Hrun.
    unfold deref in Hrun. rewrite H in Hrun. discriminate.
Qed.

End MergingOthers.

(* ===================================================================== *)
(** * Properties of display_config_parameters and main *)
(* ===================================================================== *)

Section Presentation.
Context {FS : Type} `{!FileSystem FS} `{!FloatCodec} `{!UnicodeData}.
Implicit Types (w : world FS) (r : loc) (d : dict).

Lemma printed_nil w : printed w [] = w.
Proof. unfold printed. rewrite app_nil_r. destruct w; reflexivity. Qed.

Lemma printed_printed w (l1 l2 : list string) :
  printed (printed w l1) l2 = printed w (l1 ++ l2).
Proof. unfold printed. simpl. rewrite app_assoc. reflexivity. Qed.

Lemma run_print (line : string) w : print line w = (Ok tt, printed w [line]).
Proof. reflexivity. Qed.

Lemma display_run w r d :
  heap w !! r = Some (VDict d) ->
  display_config_parameters r w = (Ok tt, printed w (display_lines d)).
Proof.
  intros Hcell. unfold display_config_parameters.
  rewrite run_bind, run_print, run_bind.
  unfold dict_items. rewrite run_bind. unfold deref. simpl heap. rewrite Hcell.
  rewrite run_ret, run_bind, for_each_print, run_print.
  unfold printed, display_lines. simpl. rewrite <- !app_assoc. reflexivity.
Qed.


(** What the handlers of [main] do with a caught exception. *)
Ltac report e :=
  unfold failure_lines;
  destruct (issubclass (exn_class_of e) FileNotFoundError);
    [repeat (rewrite run_bind, run_print; cbv beta iota);
     rewrite run_ret, printed_printed; reflexivity|];
  destruct (issubclass (exn_class_of e) ValueError);
    [rewrite run_bind, run_print; cbv beta iota; rewrite run_ret; reflexivity|];
  rewrite issubclass_Exception, run_bind, run_print; cbv beta iota;
  rewrite run_ret; reflexivity.

Lemma main_load_fails (args : Namespace) w (e : exn) (wf : world FS) :
  create_config args = false ->
  load_configuration (config args) w = (Raise e, wf) ->
  main args w = (Ok 1, printed wf (failure_lines args e)).
Proof.
  intros Hc Hload. unfold main. rewrite Hc. unfold try_except.
  rewrite run_bind, Hload. cbv beta iota. report e.
Qed.

Lemma main_merge_fails (args : Namespace) w (r1 : loc) (w1 : world FS)
    (e : exn) (wf : world FS) :
  create_config args = false ->
  load_configuration (config args) w = (Ok r1, w1) ->
  merge_configs r1 args w1 = (Raise e, wf) ->
  main args w = (Ok 1, printed wf (failure_lines args e)).
Proof.
  intros Hc Hload Hmerge. unfold main. rewrite Hc. unfold try_except.
  rewrite run_bind, Hload. cbv beta iota. rewrite run_bind, Hmerge.
  cbv beta iota. report e.
Qed.

Lemma main_validate_fails (args : Namespace) w (r1 r2 : loc) (w1 w2 : world FS)
    (e : exn) (wf : world FS) :
  create_config args = false ->
  load_configuration (config args) w = (Ok r1, w1) ->
  merge_configs r1 args w1 = (Ok r2, w2) ->
  validate_configuration r2 w2 = (Raise e, wf) ->
  main args w = (Ok 1, printed wf (failure_lines args e)).
Proof.
  intros Hc Hload Hmerge Hvalid. unfold main. rewrite Hc.
  unfold try_except.
  rewrite run_bind, Hload. cbv beta iota. rewrite run_bind, Hmerge.
  cbv beta iota. rewrite run_bind, Hvalid. cbv beta iota. report e.
Qed.

(** The lines [main] prints after the configuration. *)
Lemma main_succeeds (args : Namespace) w (r1 r2 : loc) (w1 w2 : world FS)
    d (name out tree : value) :
  create_config args = false ->
  load_configuration (config args) w = (Ok r1, w1) ->
  merge_configs r1 args w1 = (Ok r2, w2) ->
  validate_configuration r2 w2 = (Ok tt, w2) ->
  heap w2 !! r2 = Some (VDict d) ->
  Dict.get "package_name" d = Some name ->
  Dict.get "output_filename" d = Some out ->
  Dict.get "ascii_tree_output" d = Some tree ->
  main args w
  = (Ok 0,
     printed w2
       (display_lines d
        ++ [ String JSON.newline " Конфигурация успешно загружена и валидирована!";
             " Готов к анализу зависимостей пакета: " +:+ Repr.py_str name;
             " Результат будет сохранен в: " +:+ Repr.py_str out ]
        ++ (if truthy tree
            then [" ASCII-дерево зависимостей будет выведено"] else []))%list).
Proof.
  intros Hc Hload Hmerge Hvalid Hcell Hname Hout Htree.
  unfold main. rewrite Hc. unfold try_except.
  rewrite run_bind, Hload. cbv beta iota. rewrite run_bind, Hmerge.
  cbv beta iota. rewrite run_bind, Hvalid. cbv beta iota.
  rewrite run_bind, (display_run _ _ _ Hcell). cbv beta iota.
  assert (Hcell' : forall ls, heap (printed w2 ls) !! r2 = Some (VDict d))
    by (intros ls; exact Hcell).
  rewrite run_bind, run_print, printed_printed. cbv beta iota.
  rewrite run_bind, (getitem_dict _ _ _ _ _ (Hcell' _) Hname). cbv beta iota.
  rewrite run_bind, run_print, printed_printed. cbv beta iota.
  rewrite run_bind, (getitem_dict _ _ _ _ _ (Hcell' _) Hout). cbv beta iota.
  rewrite run_bind, run_print, printed_printed. cbv beta iota.
  rewrite run_bind, (getitem_dict _ _ _ _ _ (Hcell' _) Htree). cbv beta iota.
  rewrite run_bind.
  destruct (truthy tree).
  - rewrite run_print, printed_printed. cbv beta iota. rewrite run_ret.
    rewrite <- !app_assoc. reflexivity.
  - rewrite run_ret. cbv beta iota. rewrite run_ret.
    rewrite app_nil_r, <- !app_assoc. reflexivity.
Qed.

Lemma main_runs (args : Namespace) w :
  create_config args = false ->
  exists code w',
    main args w = (Ok code, w')
    /\ (code = 0 \/ code = 1)
    /\ (code = 0 <->
        exists r1 w1 r2 w2,
          load_configuration (config args) w = (Ok r1, w1)
          /\ merge_configs r1 args w1 = (Ok r2, w2)
          /\ validate_configuration r2 w2 = (Ok tt, w2))
    /\ files w' = files w
    /\ heap w `prefix_of` heap w'
    /\ stdout w `prefix_of` stdout w'.
Proof.
  intros Hc.
  pose proof (load_effects w (config args)) as Hle.
  destruct (load_configuration (config args) w) as [[r1|e] w1] eqn:Hload.
  - destruct Hle as (_ & v & ->).
    destruct (merge_configs_effects
                (World (heap w ++ [v]) (files w) (stdout w)) r1 args)
      as (o2 & w2 & Hmerge & Hf2 & Ho2 & Hh2).
    simpl in Hf2, Ho2, Hh2.
    assert (Hpre : heap w `prefix_of` heap w2).
    { etransitivity; [|exact Hh2]. apply prefix_app_r. reflexivity. }
    destruct o2 as [r2|e].
    + pose proof (read_only_validate r2 w2) as Hro.
      destruct (validate_configuration r2 w2) as [[[]|e] w3] eqn:Hvalid;
        simpl in Hro; subst w3.
      * destruct (validate_ok_is_dict _ _ _ Hvalid) as [d Hcell].
        pose proof (proj1 (accepted_iff _ _ _ Hcell) Hvalid)
          as (Hall & (s & Hname & _) & _).
        destruct (present_get "output_filename" d) as [out Hout]; [apply Hall; in_list|].
        destruct (present_get "ascii_tree_output" d) as [tree Htree]; [apply Hall; in_list|].
        eexists _, _.
        split; [apply (main_succeeds _ _ _ _ _ _ _ _ _ _ Hc Hload Hmerge Hvalid
                         Hcell Hname Hout Htree)|].
        split; [left; reflexivity|]. split; [|split; [|split]].
        -- split; [|reflexivity]. intros _.
           exists r1, (World (heap w ++ [v]) (files w) (stdout w)), r2, w2. auto.
        -- exact Hf2.
        -- exact Hpre.
        -- simpl. rewrite Ho2. apply prefix_app_r. reflexivity.
      * eexists _, _.
        split; [apply (main_validate_fails _ _ _ _ _ _ _ _ Hc Hload Hmerge Hvalid)|].
        split; [right; reflexivity|]. split; [|split; [|split]].
        -- split; [discriminate|].
           intros (r1' & w1' & r2' & w2' & [= <- <-] & Hm' & Hv').
           rewrite Hmerge in Hm'. injection Hm' as <- <-.
           rewrite Hvalid in Hv'. discriminate.
        -- exact Hf2.
        -- exact Hpre.
        -- simpl. rewrite Ho2. apply prefix_app_r. reflexivity.
    + eexists _, _.
      split; [apply (main_merge_fails _ _ _ _ _ _ Hc Hload Hmerge)|].
      split; [right; reflexivity|]. split; [|split; [|split]].
      * split; [discriminate|].
        intros (r1' & w1' & r2' & w2' & [= <- <-] & Hm' & _).
        rewrite Hmerge in Hm'. discriminate.
      * exact Hf2.
      * exact Hpre.
      * simpl. rewrite Ho2. apply prefix_app_r. reflexivity.
  - destruct Hle as (-> & _). eexists _, _.
    split; [apply (main_load_fails _ _ _ _ Hc Hload)|].
    split; [right; reflexivity|]. split; [|split; [|split]].
    + split; [discriminate|].
      intros (r1' & w1' & r2' & w2' & Hl' & _). discriminate.
    + reflexivity.
    + reflexivity.
    + simpl. apply prefix_app_r. reflexivity.
Qed.


(** X12: what [main] says is decided by the class of the exception alone,
    at whichever of the three stages it was raised: for FileNotFoundError
    the two lines about the missing file, for any ValueError one line
    under the validation banner, for anything else one line under the
    unexpected-error banner; the exit status is 1 and nothing of the
    configuration is printed. *)
Theorem main_reports_by_class (args : Namespace) w (e : exn) (wf : world FS) :
  create_config args = false ->
  load_configuration (config args) w = (Raise e, wf)
  \/ (exists r1 w1,
        load_configuration (config args) w = (Ok r1, w1)
        /\ (merge_configs r1 args w1 = (Raise e, wf)
            \/ exists r2 w2,
                 merge_configs r1 args w1 = (Ok r2, w2)
                 /\ validate_configuration r2 w2 = (Raise e, wf))) ->
  main args w
  = (Ok 1,
     World (heap wf) (files wf)
       (stdout wf ++
        if issubclass (exn_class_of e) FileNotFoundError then
          [ " Ошибка: Конфигурационный файл '" +:+ config args +:+ "' не найден.";
            " Создайте файл конфигурации: python main.py --create-config" ]
        else if issubclass (exn_class_of e) ValueError then
          [ " Ошибка валидации конфигурации: " +:+ exn_str e ]
        else
          [ " Неожиданная ошибка: " +:+ exn_str e ]))
  /\ stdout wf = stdout w.
Proof.
  intros Hc Hstage.
  destruct Hstage as [Hload | (r1 & w1 & Hload & [Hmerge | (r2 & w2 & Hmerge & Hvalid)])].
  - split; [apply (main_load_fails _ _ _ _ Hc Hload)|].
    pose proof (load_effects w (config args)) as Hle.
    rewrite Hload in Hle. destruct Hle as (-> & _). reflexivity.
  - split; [apply (main_merge_fails _ _ _ _ _ _ Hc Hload Hmerge)|].
    pose proof (load_effects w (config args)) as Hle.
    rewrite Hload in Hle. destruct Hle as (_ & v & ->).
    destruct (merge_configs_effects (World (heap w ++ [v]) (files w) (stdout w)) r1 args)
      as (o & w' & Hm & _ & Ho & _).
    rewrite Hmerge in Hm. injection Hm as <- <-. exact Ho.
  - split; [apply (main_validate_fails _ _ _ _ _ _ _ _ Hc Hload Hmerge Hvalid)|].
    pose proof (load_effects w (config args)) as Hle.
    rewrite Hload in Hle. destruct Hle as (_ & v & ->).
    destruct (merge_configs_effects (World (heap w ++ [v]) (files w) (stdout w)) r1 args)
      as (o & w' & Hm & _ & Ho & _).
    rewrite Hmerge in Hm. injection Hm as <- <-.
    pose proof (read_only_validate r2 w2) as Hro. rewrite Hvalid in Hro.
    simpl in Hro. subst wf. exact Ho.
Qed.

(** X13: how [main] reports the failures of loading: a missing file with
    the two lines that name it and suggest --create-config; a text that is
    not JSON under the validation banner, since the error raised for it is
    a ValueError; any other failure to read under the unexpected-error
    banner.  In each case the status is 1 and nothing else changes. *)
Theorem main_reports_load_failures (args : Namespace) w :
  create_config args = false ->
  (path_exists (files w) (config args) = false ->
   main args w
   = (Ok 1,
      printed w
        [ " Ошибка: Конфигурационный файл '" +:+ config args +:+ "' не найден.";
          " Создайте файл конфигурации: python main.py --create-config" ]))
  /\ (forall text e,
        path_exists (files w) (config args) = true ->
        read_text (files w) (config args) = Ok text ->
        JSON.loads text = Raise e ->
        exn_class_of e = JSONDecodeError ->
        main args w
        = (Ok 1,
           printed w
             [ " Ошибка валидации конфигурации: "
               +:+ "Ошибка парсинга JSON в файле '" +:+ config args +:+ "': "
               +:+ exn_str e ]))
  /\ (forall e,
        path_exists (files w) (config args) = true ->
        read_text (files w) (config args) = Raise e ->
        issubclass (exn_class_of e) FileNotFoundError = false ->
        issubclass (exn_class_of e) JSONDecodeError = false ->
        main args w
        = (Ok 1,
           printed w
             [ " Неожиданная ошибка: "
               +:+ "Неожиданная ошибка при загрузке конфигурации: "
               +:+ exn_str e ])).
Proof.
  intros Hc. split; [|split].
  - intros Hex.
    rewrite (main_load_fails _ _ _ _ Hc (load_missing _ _ Hex)). reflexivity.
  - intros text e Hex Hread Hloads Hclass.
    assert (Hload : load_configuration (config args) w
                    = (Raise (Exn ValueError
                                ("Ошибка парсинга JSON в файле '" +:+ config args
                                 +:+ "': " +:+ exn_str e)), w)).
    { rewrite (load_read _ _ Hex), Hread, Hloads, Hclass. reflexivity. }
    rewrite (main_load_fails _ _ _ _ Hc Hload). reflexivity.
  - intros e Hex Hread Hnf Hnj.
    assert (Hload : load_configuration (config args) w
                    = (Raise (Exn RuntimeError
                                ("Неожиданная ошибка при загрузке конфигурации: "
                                 +:+ exn_str e)), w)).
    { rewrite (load_read _ _ Hex), Hread, Hnf, Hnj. reflexivity. }
    rewrite (main_load_fails _ _ _ _ Hc Hload). reflexivity.
Qed.


Lemma main_create_run (args : Namespace) w :
  create_config args = true ->
  main args w
  = match write_text (files w) (config args) (JSON.dumps 4 (VDict default_config)) with
    | Ok fs' =>
        (Ok 0,
         World (heap w) fs'
           (stdout w
            ++ ["Создан файл конфигурации по умолчанию: " +:+ config args]))
    | Raise e => (Raise e, w)
    end.
Proof.
  intros Hc. unfold main. rewrite Hc.
  rewrite run_bind. unfold create_default_config. rewrite run_bind.
  unfold write_file.
  destruct (write_text (files w) (config args) (JSON.dumps 4 (VDict default_config)));
    reflexivity.
Qed.


(** X16: a configuration file whose JSON text is not an object (an array,
    a string, a number, true, false, null) is never accepted: [main] ends
    with status 1 whatever the command line gives. *)
Theorem main_rejects_non_object (args : Namespace) w (text : string) (v : value) :
  create_config args = false ->
  path_exists (files w) (config args) = true ->
  read_text (files w) (config args) = Ok text ->
  JSON.loads text = Ok v ->
  match v with VDict _ => False | _ => True end ->
  exists w', main args w = (Ok 1, w').
Proof.
  intros Hc Hex Hread Hloads Hv.
  destruct (main_runs args w Hc) as (code & w' & Hrun & Hcode & Hiff & _).
  exists w'. destruct Hcode as [-> | ->]; [exfalso|exact Hrun].
  destruct (proj1 Hiff eq_refl) as (r1 & w1 & r2 & w2 & Hload & Hmerge & Hvalid).
  rewrite (load_read _ _ Hex), Hread, Hloads in Hload. injection Hload as <- <-.
  destruct (validate_ok_is_dict _ _ _ Hvalid) as [d' Hcell'].
  destruct (merge_configs_dict_from_dict _ _ _ _ _ _ Hmerge Hcell') as [d Hcell].
  rewrite merged_lookup in Hcell. injection Hcell as ->. exact Hv.
Qed.

End Presentation.

(* ===================================================================== *)
(** * A first run *)
(* ===================================================================== *)

Section FirstRun.
Context {FS : Type} `{!FileSystem FS} `{!FloatCodec} `{!UnicodeData}.
Implicit Types (w : world FS) (r : loc) (d : dict).

(** X17: the file written by a run with --create-config is accepted by the
    next run: a run on the same path with no override ends with status 0,
    having printed the seven default entries (Booleans as True and False)
    between the two delimiter lines and then the four lines of the
    summary, the one about the ASCII tree included; it writes nothing. *)
Theorem run_after_create_config (a1 a2 : Namespace) w (w1 : world FS) :
  create_config a1 = true ->
  main a1 w = (Ok 0, w1) ->
  create_config a2 = false ->
  config a2 = config a1 ->
  no_overrides a2 ->
  exists w2,
    main a2 w1 = (Ok 0, w2)
    /\ files w2 = files w1
    /\ stdout w2
       = (stdout w1
          ++ [ "=== Конфигурационные параметры ===";
               "package_name: example-package";
               "repository_url: https://github.com/example/repo";
               "test_repository_mode: False";
               "test_repository_path: ./test-repo";
               "output_filename: dependency_graph.png";
               "ascii_tree_output: True";
               "package_filter: ";
               "==================================";
               String JSON.newline " Конфигурация успешно загружена и валидирована!";
               " Готов к анализу зависимостей пакета: example-package";
               " Результат будет сохранен в: dependency_graph.png";
               " ASCII-дерево зависимостей будет выведено" ])%list.
Proof.
  intros Hc1 Hrun1 Hc2 Hpath Hcli.
  rewrite (main_create_run _ _ Hc1) in Hrun1.
  destruct (write_text (files w) (config a1) (JSON.dumps 4 (VDict default_config)))
    as [fs'|e] eqn:Hwrite; [|discriminate].
  injection Hrun1 as <-.
  destruct (write_then_read _ _ _ _ default_config_text_no_cr Hwrite) as [Hex Hread].
  set (w1 := World (heap w) fs' _).
  set (w2 := World (heap w1 ++ [VDict default_config]) (files w1) (stdout w1)).
  set (w3 := World (heap w2 ++ [VDict default_config]) (files w2) (stdout w2)).
  assert (Hload : load_configuration (config a2) w1 = (Ok (length (heap w1)), w2)).
  { rewrite Hpath, (load_read w1 (config a1) Hex). simpl files. rewrite Hread.
    rewrite default_config_decodes. reflexivity. }
  assert (Hmerge : merge_configs (length (heap w1)) a2 w2 = (Ok (length (heap w2)), w3)).
  { rewrite (merge_configs_run w2 _ default_config a2 (merged_lookup w1 _)).
    rewrite (overrides_none _ _ Hcli). reflexivity. }
  assert (Hcell : heap w3 !! length (heap w2) = Some (VDict default_config))
    by apply (merged_lookup w2).
  assert (Hvalid : validate_configuration (length (heap w2)) w3 = (Ok tt, w3)).
  { rewrite (validate_present w3 _ default_config
               (VStr "example-package") (VBool false)
               (VStr "https://github.com/example/repo") Hcell);
      reflexivity. }
  eexists. split.
  - apply (main_succeeds a2 w1 _ _ _ _ default_config
             (VStr "example-package") (VStr "dependency_graph.png") (VBool true)
             Hc2 Hload Hmerge Hvalid Hcell); reflexivity.
  - split; reflexivity.
Qed.

End FirstRun.

(* ===================================================================== *)
(** * The further properties at sample inputs *)
(* ===================================================================== *)

Section MoreWitnesses.
Import Samples MoreSamples.
#[local] Existing Instance MemFS.no_floats.
#[local] Existing Instance all_printable.

Lemma validate_accepts_exactly_witness :
  validate_configuration 0%nat
    (objects [VDict (remote (VBool false) (VStr "https://example.org/repo"))])
  = (Ok tt, objects [VDict (remote (VBool false) (VStr "https://example.org/repo"))]).
Proof.
  apply (validate_accepts_exactly
           (objects [VDict (remote (VBool false) (VStr "https://example.org/repo"))])
           0%nat (remote (VBool false) (VStr "https://example.org/repo")) eq_refl).
  split; [all_required|]. split.
  - exists "react". split; [reflexivity | vm_compute; reflexivity].
  - exists (VBool false). split; [reflexivity|].
    exists "https://example.org/repo". split; [reflexivity | vm_compute; reflexivity].
Defined.

Lemma validate_raises_only_value_errors_witness :
  validate_configuration 0%nat (objects [VDict incomplete])
  = (Raise (Exn ValueError "Отсутствует обязательный параметр: package_name"),
     objects [VDict incomplete])
  /\ exn_class_of (Exn ValueError "Отсутствует обязательный параметр: package_name")
     = ValueError.
Proof.
  assert (Hrun : validate_configuration 0%nat (objects [VDict incomplete])
                 = (Raise (Exn ValueError "Отсутствует обязательный параметр: package_name"),
                    objects [VDict incomplete])) by (vm_compute; reflexivity).
  split; [exact Hrun|].
  exact (proj1 (validate_raises_only_value_errors
                  (objects [VDict incomplete]) 0%nat incomplete
                  (Exn ValueError "Отсутствует обязательный параметр: package_name")
                  (objects [VDict incomplete]) eq_refl Hrun)).
Defined.

Lemma validate_package_name_first_witness :
  validate_configuration 0%nat (objects [VDict blank_name])
  = (Raise (Exn ValueError "Имя пакета должно быть непустой строкой"),
     objects [VDict blank_name]).
Proof.
  apply (validate_package_name_first (objects [VDict blank_name]) 0%nat blank_name
           (VStr "  ") eq_refl).
  - all_required.
  - reflexivity.
  - vm_compute. reflexivity.
Defined.

Lemma merge_toggles_witness :
  exists r' w' d',
    merge_configs 0%nat both_tree_flags (objects [VDict default_config]) = (Ok r', w')
    /\ heap w' !! r' = Some (VDict d')
    /\ Dict.get "ascii_tree_output" d' = Some (VBool false)
    /\ Dict.get "test_repository_mode" d' = Some (VBool true).
Proof.
  exact (merge_toggles (objects [VDict default_config]) 0%nat default_config
           both_tree_flags eq_refl).
Defined.

Lemma merge_twice_same_witness :
  exists r1 w1 r2 w2 d',
    merge_configs 0%nat name_b_no_tree (objects [VDict default_config]) = (Ok r1, w1)
    /\ heap w1 !! r1 = Some (VDict d')
    /\ merge_configs r1 name_b_no_tree w1 = (Ok r2, w2)
    /\ heap w2 !! r2 = Some (VDict d').
Proof.
  exact (merge_twice_same (objects [VDict default_config]) 0%nat default_config
           name_b_no_tree eq_refl).
Defined.

Lemma merge_keeps_key_order_witness :
  exists r' w' d',
    merge_configs 0%nat all_given (objects [VDict [("color", VStr "blue")]]) = (Ok r', w')
    /\ heap w' !! r' = Some (VDict d')
    /\ Dict.keys [("color", VStr "blue")] `prefix_of` Dict.keys d'
    /\ (forall k, k ∈ Dict.keys d' ->
                  k ∈ Dict.keys [("color", VStr "blue")] \/ k ∈ override_targets)
    /\ (NoDup (Dict.keys [("color", VStr "blue")]) -> NoDup (Dict.keys d')).
Proof.
  exact (merge_keeps_key_order (objects [VDict [("color", VStr "blue")]]) 0%nat
           [("color", VStr "blue")] all_given eq_refl).
Defined.

Lemma command_line_supplies_required_witness :
  exists r' w',
    merge_configs 0%nat all_given (objects [VDict []]) = (Ok r', w')
    /\ validate_configuration r' w' = (Ok tt, w').
Proof.
  apply (command_line_supplies_required (objects [VDict []]) 0%nat [] all_given
           "react" "https://example.org/repo" "graph.png");
    try reflexivity.
  - discriminate.
  - left. reflexivity.
Defined.

Lemma test_mode_needs_path_in_file_witness :
  exists r' w' d' e,
    merge_configs 0%nat both_tree_flags
      (objects [VDict (remote (VBool false) (VStr "https://example.org/repo"))])
    = (Ok r', w')
    /\ heap w' !! r' = Some (VDict d')
    /\ validate_configuration r' w' = (Raise e, w')
    /\ ((forall q, q ∈ required_params -> Dict.mem q d' = true) ->
        (exists s, Dict.get "package_name" d' = Some (VStr s) /\ Text.blank s = false) ->
        e = missing_test_path).
Proof.
  apply (test_mode_needs_path_in_file
           (objects [VDict (remote (VBool false) (VStr "https://example.org/repo"))])
           0%nat (remote (VBool false) (VStr "https://example.org/repo"))
           both_tree_flags); reflexivity.
Defined.



Lemma main_reports_by_class_witness :
  main (only_config "data") some_files
  = (Ok 1,
     World [] (files some_files)
       [ " Неожиданная ошибка: Неожиданная ошибка при загрузке конфигурации: "
         +:+ "[Errno 21] Is a directory: 'data'" ]).
Proof.
  destruct (main_reports_by_class (only_config "data") some_files
              (Exn RuntimeError
                 ("Неожиданная ошибка при загрузке конфигурации: "
                  +:+ "[Errno 21] Is a directory: 'data'"))
              some_files eq_refl) as [Hrun _].
  - left. vm_compute. reflexivity.
  - exact Hrun.
Defined.

Lemma main_reports_load_failures_witness :
  main (only_config "absent.json") some_files
  = (Ok 1,
     printed some_files
       [ " Ошибка: Конфигурационный файл 'absent.json' не найден.";
         " Создайте файл конфигурации: python main.py --create-config" ])
  /\ main (only_config "broken.json") some_files
     = (Ok 1,
        printed some_files
          [ " Ошибка валидации конфигурации: Ошибка парсинга JSON в файле 'broken.json': "
            +:+ "Expecting property name enclosed in double quotes: "
            +:+ "line 1 column 2 (char 1)" ]).
Proof.
  split.
  - apply (main_reports_load_failures (only_config "absent.json") some_files eq_refl).
    reflexivity.
  - destruct (main_reports_load_failures (only_config "broken.json") some_files eq_refl)
      as (_ & Hjson & _).
    apply (Hjson "{"
             (Exn JSONDecodeError
                "Expecting property name enclosed in double quotes: line 1 column 2 (char 1)"));
      reflexivity.
Defined.



Lemma main_rejects_non_object_witness :
  exists w', main (only_config "list.json") some_files = (Ok 1, w').
Proof.
  apply (main_rejects_non_object (only_config "list.json") some_files
           "[1, 2]" (VList [VInt 1; VInt 2])); first [reflexivity | exact I].
Defined.

Lemma run_after_create_config_witness :
  exists w2,
    main (only_config "config.json") (main create_flag some_files).2 = (Ok 0, w2)
    /\ files w2 = files (main create_flag some_files).2.
Proof.
  destruct (run_after_create_config create_flag (only_config "config.json")
              some_files (main create_flag some_files).2)
    as (w2 & Hrun & Hfiles & _);
    [reflexivity | vm_compute; reflexivity | reflexivity | reflexivity | repeat split |].
  exists w2. split; [exact Hrun | exact Hfiles].
Defined.

End MoreWitnesses.
